(** * Stream-Schedule backend: request handlers over the relational store

    A shallow embedding of [backend/app.py]: the two tables ([User],
    [ScheduledContent]), the login session, and the HTTP handlers
    ([register], [login], [get_profile], [get_content], [create_content],
    [update_content], [connect_platform], [disconnect_platform], ...).

    Modelling conventions.
    - A request body is the Python value [request.get_json()] returns
      ([pyval]); a handler that subscripts it or calls [.get] on it raises
      when it is not a dict, exactly as the interpreter does.
    - The storage layer is SQLite behind SQLAlchemy, as [app.config] sets
      it.  A value written to a text column or used as a query parameter is
      bound by the driver ([bind_text]): [None] and strings go through as
      they are, a number is kept as its decimal text, a JSON array or
      object cannot be bound and the statement raises; an integer beyond 64
      bits raises [OverflowError].  A comparison in a query is a comparison
      of the bound parameter with the stored text ([sql_eq]).
    - At insertion a column that has a default takes it also when the
      handler passes [None]; an update writes the columns whose value
      differs from the loaded row's.
    - [nullable=False] columns reject [None] at commit ([IntegrityError]).
    - An exception that no handler catches ends the request with status 500
      and the pending changes of the request are dropped with the session.
    - [datetime.fromisoformat] and [datetime.isoformat] are library
      functions: they are parameters of the model.

    The route table ([request], [handle], [serve]) dispatches to the
    handlers, and [transition] lists the effects a request can have on the
    state; the store invariants are proved along it.  The last part embeds
    [scripts/strip-commit-msg-filter.py], the filter that drops co-author
    trailers from a commit message. *)

From Stdlib Require Import ZArith List String Ascii Bool Lia DecimalString.
From Stdlib Require Import Sorted Permutation.
Import ListNotations.
Open Scope string_scope.
Open Scope list_scope.
Open Scope Z_scope.

(** ** Python values carried by JSON bodies and by columns *)

#[warnings="-register-all"]
Inductive pyval : Type :=
| PNone
| PBool (b : bool)
| PInt (n : Z)
| PStr (s : string)
| PList (items : list pyval)
| PDict (entries : list (string * pyval)).

(** A parsed JSON object binds each key once; [dict_get] reads the binding. *)
Fixpoint dict_get (k : string) (d : list (string * pyval)) : option pyval :=
  match d with
  | [] => None
  | (k', v) :: d' => if String.eqb k k' then Some v else dict_get k d'
  end.

(** [bool(x)]: Python truthiness. *)
Definition truthy (v : pyval) : bool :=
  match v with
  | PNone => false
  | PBool b => b
  | PInt n => negb (n =? 0)
  | PStr s => negb (String.eqb s EmptyString)
  | PList l => match l with [] => false | _ => true end
  | PDict d => match d with [] => false | _ => true end
  end.

(** [a == b] on Python values: [bool] is a subclass of [int], sequences
    compare element-wise, dicts compare as mappings. *)
Fixpoint py_eq (a b : pyval) {struct a} : bool :=
  match a, b with
  | PNone, PNone => true
  | PBool x, PBool y => Bool.eqb x y
  | PBool x, PInt y => (if x then 1 else 0) =? y
  | PInt x, PBool y => x =? (if y then 1 else 0)
  | PInt x, PInt y => x =? y
  | PStr s, PStr t => String.eqb s t
  | PList l, PList m =>
      (fix go (l m : list pyval) {struct l} : bool :=
         match l, m with
         | [], [] => true
         | x :: l', y :: m' => py_eq x y && go l' m'
         | _, _ => false
         end) l m
  | PDict d, PDict e =>
      (Nat.eqb (List.length d) (List.length e)) &&
      (fix all (d : list (string * pyval)) : bool :=
         match d with
         | [] => true
         | (k, v) :: d' =>
             match dict_get k e with
             | Some w => py_eq v w
             | None => false
             end && all d'
         end) d
  | _, _ => false
  end.

(** ** Exceptions and the error monad of a request *)

Inductive exn : Type :=
| KeyError (k : string)        (* data['k'] on a dict without k *)
| TypeError                    (* subscripting a non-dict, fromisoformat(non-str) *)
| AttributeError               (* .get on a non-dict *)
| ValueError                   (* fromisoformat on a malformed string *)
| IntegrityError               (* NOT NULL violated at commit *)
| DBAPIError                   (* a list or dict bound as an SQL parameter:
                                  the driver refuses the statement *)
| OverflowError.               (* an integer beyond 64 bits bound as a parameter *)

Inductive exc (A : Type) : Type :=
| Ok (a : A)
| Raise (e : exn).
Arguments Ok {A} a.
Arguments Raise {A} e.

Definition bind {A B} (m : exc A) (k : A -> exc B) : exc B :=
  match m with
  | Ok a => k a
  | Raise e => Raise e
  end.

Notation "x <- m ;; k" := (bind m (fun x => k))
  (at level 61, m at next level, right associativity).

(** [data[k]] *)
Definition subscript (data : pyval) (k : string) : exc pyval :=
  match data with
  | PDict d => match dict_get k d with
               | Some v => Ok v
               | None => Raise (KeyError k)
               end
  | _ => Raise TypeError
  end.

(** [data.get(k, default)] *)
Definition get_default (data : pyval) (k : string) (default : pyval) : exc pyval :=
  match data with
  | PDict d => match dict_get k d with
               | Some v => Ok v
               | None => Ok default
               end
  | _ => Raise AttributeError
  end.

(** [data.get(k)] *)
Definition get (data : pyval) (k : string) : exc pyval :=
  get_default data k PNone.

(** [k in data], reached only after a successful [.get] on [data]. *)
Definition contains (data : pyval) (k : string) : bool :=
  match data with
  | PDict d => match dict_get k d with Some _ => true | None => false end
  | _ => false
  end.

(** ** The tables *)

Definition datetime := Z.

Record User : Type := mkUser {
  id : Z;
  username : pyval;
  email : pyval;
  password_hash : pyval;
  twitch_token : pyval;
  twitter_token : pyval;
  instagram_token : pyval;
  discord_token : pyval;
  created_at : datetime
}.

Record ScheduledContent : Type := mkContent {
  c_id : Z;
  title : pyval;
  content : pyval;
  content_type : pyval;
  platforms : pyval;
  scheduled_for : datetime;
  hashtags : pyval;
  mentions : pyval;
  files : pyval;
  status : pyval;
  user_id : Z;
  c_created_at : datetime
}.

Record db : Type := mkDb {
  users : list User;
  contents : list ScheduledContent
}.

(** The server state one client sees: the store and the client's session
    ([_user_id] of the session cookie, absent when logged out). *)
Record world : Type := mkWorld {
  store : db;
  session : option Z
}.

(** ** Responses *)

Inductive response : Type :=
| Json (code : Z) (body : pyval)     (* jsonify(body), code *)
| Unauthorized                       (* login_required without a user: 401 *)
| ServerError (e : exn).             (* unhandled exception: 500 *)

Definition status_code (r : response) : Z :=
  match r with
  | Json code _ => code
  | Unauthorized => 401
  | ServerError _ => 500
  end.

(** ** A date library instance

    [datetime] values are integers ordered chronologically.  The instance
    below reads and prints the form [YYYY-MM-DDTHH:MM:SS] as the packed
    decimal number [YYYYMMDDHHMMSS]; it is used to run the handlers on
    concrete requests. *)

Fixpoint digits (s : string) (acc : Z) : option Z :=
  match s with
  | EmptyString => Some acc
  | String c s' =>
      let n := Z.of_N (N_of_ascii c) in
      if (48 <=? n) && (n <=? 57) then digits s' (10 * acc + (n - 48)) else None
  end.

Definition field (s : string) (start len : nat) (lo hi : Z) : option Z :=
  match digits (substring start len s) 0 with
  | Some n => if (lo <=? n) && (n <=? hi) then Some n else None
  | None => None
  end.

Definition sep (s : string) (i : nat) (c : string) : bool :=
  String.eqb (substring i 1 s) c.

Definition days_in_month (y m : Z) : Z :=
  if m =? 2 then
    if ((y mod 4 =? 0) && negb (y mod 100 =? 0)) || (y mod 400 =? 0) then 29 else 28
  else if (m =? 4) || (m =? 6) || (m =? 9) || (m =? 11) then 30 else 31.

Definition sample_fromisoformat (s : string) : option datetime :=
  if negb (Nat.eqb (String.length s) 19) then None else
  if negb (sep s 4 "-" && sep s 7 "-" && sep s 10 "T" && sep s 13 ":" && sep s 16 ":")
  then None else
  match field s 0 4 1 9999, field s 5 2 1 12, field s 11 2 0 23,
        field s 14 2 0 59, field s 17 2 0 59 with
  | Some y, Some m, Some h, Some mi, Some se =>
      match field s 8 2 1 (days_in_month y m) with
      | Some d =>
          Some (((((y * 100 + m) * 100 + d) * 100 + h) * 100 + mi) * 100 + se)
      | None => None
      end
  | _, _, _, _, _ => None
  end.

Definition digit_char (n : Z) : string :=
  String (ascii_of_N (Z.to_N (48 + n mod 10))) EmptyString.

Fixpoint pad (width : nat) (n : Z) : string :=
  match width with
  | O => EmptyString
  | S w => (pad w (n / 10) ++ digit_char n)%string
  end.

Definition sample_isoformat (t : datetime) : string :=
  (pad 4 (t / 10000000000) ++ "-" ++ pad 2 (t / 100000000) ++ "-" ++
   pad 2 (t / 1000000) ++ "T" ++ pad 2 (t / 10000) ++ ":" ++
   pad 2 (t / 100) ++ ":" ++ pad 2 t)%string.

(** ** Queries and commits *)

Definition is_none (v : pyval) : bool :=
  match v with PNone => true | _ => false end.

(** The integers SQLite stores and the driver binds. *)
Definition in_int64 (n : Z) : bool :=
  (- 2 ^ 63 <=? n) && (n <? 2 ^ 63).

(** The text SQLite keeps for an integer written to a text column. *)
Definition decimal (n : Z) : string := NilZero.string_of_int (Z.to_int n).

(** A Python value bound to a text column or compared with one: what the
    column then holds.  [bool] is bound as the integer it is. *)
Definition bind_text (v : pyval) : exc pyval :=
  match v with
  | PNone => Ok PNone
  | PStr s => Ok (PStr s)
  | PBool b => Ok (PStr (if b then "1" else "0"))
  | PInt n => if in_int64 n then Ok (PStr (decimal n)) else Raise OverflowError
  | PList _ | PDict _ => Raise DBAPIError
  end.

(** [column = parameter] in a query, on a stored value and a bound one;
    a [None] parameter is rendered [column IS NULL]. *)
Definition sql_eq (stored param : pyval) : bool :=
  match stored, param with
  | PNone, PNone => true
  | PStr s, PStr t => String.eqb s t
  | _, _ => false
  end.

(** A column with a default, at insertion. *)
Definition with_default (default stored : pyval) : pyval :=
  if is_none stored then default else stored.

(** A column at an update: written when the assigned value differs from
    the loaded one, kept otherwise. *)
Definition write_column (loaded assigned : pyval) : exc pyval :=
  if py_eq loaded assigned then Ok loaded else bind_text assigned.

(** Integer primary keys: a new row takes one more than the largest key. *)
Definition next_id (ids : list Z) : Z := 1 + fold_right Z.max 0 ids.

(** [User.query.filter_by(col=v).first()] *)
Definition first_user_by (col : User -> pyval) (v : pyval) (d : db)
  : exc (option User) :=
  param <- bind_text v ;;
  Ok (find (fun u => sql_eq (col u) param) (users d)).

(** [User.query.get(uid)] *)
Definition load_user (uid : Z) (d : db) : option User :=
  find (fun u => id u =? uid) (users d).

(** [ScheduledContent.query.filter_by(id=cid, user_id=uid).first()].
    The id is bound as a 64-bit integer: beyond that range the driver raises
    [OverflowError].  Stored keys are 64-bit integers, so such an id names
    no stored row; the table is read first and the range is tested when no
    row is found. *)
Definition first_content (cid uid : Z) (d : db) : exc (option ScheduledContent) :=
  match find (fun c => (c_id c =? cid) && (user_id c =? uid)) (contents d) with
  | Some c => Ok (Some c)
  | None => if in_int64 cid then Ok None else Raise OverflowError
  end.

(** [db.session.add(user); db.session.commit()]: the INSERT binds the three
    values given to the constructor, then the constraints are checked. *)
Definition insert_user (u : User) (d : db) : exc db :=
  name <- bind_text (username u) ;;
  mail <- bind_text (email u) ;;
  pw <- bind_text (password_hash u) ;;
  if is_none name || is_none mail || is_none pw
  then Raise IntegrityError
  else Ok (mkDb (users d ++
                 [mkUser (id u) name mail pw (twitch_token u) (twitter_token u)
                         (instagram_token u) (discord_token u) (created_at u)])
                (contents d)).

(** The user row with the key of [u] replaced by [u]. *)
Definition replace_user (u : User) (d : db) : db :=
  mkDb (map (fun r => if id r =? id u then u else r) (users d)) (contents d).

(** [current_user.<column> = value; db.session.commit()]: the UPDATE binds
    the value assigned to the column (a value equal to the stored text binds
    to that text, so the row is then as before). *)
Definition save_user (assign : pyval -> User -> User) (value : pyval)
    (u : User) (d : db) : exc db :=
  stored <- bind_text value ;;
  Ok (replace_user (assign stored u) d).

(** [db.session.add(content); db.session.commit()]: the INSERT binds the
    values given to the constructor; [content_type], [platforms] and [files]
    take their default when the value is [None]. *)
Definition insert_content (c : ScheduledContent) (d : db) : exc db :=
  t <- bind_text (title c) ;;
  body <- bind_text (content c) ;;
  ctype <- bind_text (content_type c) ;;
  plats <- bind_text (platforms c) ;;
  tags <- bind_text (hashtags c) ;;
  ments <- bind_text (mentions c) ;;
  fs <- bind_text (files c) ;;
  if is_none t || is_none body
  then Raise IntegrityError
  else Ok (mkDb (users d)
                (contents d ++
                 [mkContent (c_id c) t body
                            (with_default (PStr "text") ctype)
                            (with_default (PStr "[]") plats)
                            (scheduled_for c) tags ments
                            (with_default (PStr "[]") fs)
                            (status c) (user_id c) (c_created_at c)])).

(** [db.session.commit()] after the assignments to the loaded row [c], which
    gave [c']: the UPDATE binds the columns that changed. *)
Definition save_content (c c' : ScheduledContent) (d : db) : exc db :=
  t <- write_column (title c) (title c') ;;
  body <- write_column (content c) (content c') ;;
  ctype <- write_column (content_type c) (content_type c') ;;
  plats <- write_column (platforms c) (platforms c') ;;
  tags <- write_column (hashtags c) (hashtags c') ;;
  ments <- write_column (mentions c) (mentions c') ;;
  fs <- write_column (files c) (files c') ;;
  if is_none t || is_none body
  then Raise IntegrityError
  else
    let stored := mkContent (c_id c) t body ctype plats (scheduled_for c')
                            tags ments fs (status c) (user_id c)
                            (c_created_at c) in
    Ok (mkDb (users d)
             (map (fun r => if c_id r =? c_id c then stored else r)
                  (contents d))).

(** [db.session.delete(content); db.session.commit()] *)
Definition remove_content (c : ScheduledContent) (d : db) : db :=
  mkDb (users d) (filter (fun r => negb (c_id r =? c_id c)) (contents d)).

(** [.order_by(ScheduledContent.scheduled_for.desc())]: rows with equal
    keys keep their table order. *)
Fixpoint insert_desc (c : ScheduledContent) (l : list ScheduledContent)
  : list ScheduledContent :=
  match l with
  | [] => [c]
  | r :: l' =>
      if scheduled_for r <=? scheduled_for c then c :: r :: l'
      else r :: insert_desc c l'
  end.

Definition order_by_desc (l : list ScheduledContent) : list ScheduledContent :=
  fold_right insert_desc [] l.

(** ** Session *)

Definition current_user (w : world) : option User :=
  match session w with
  | Some uid => load_user uid (store w)
  | None => None
  end.

(** [@login_required] *)
Definition login_required (h : User -> world -> response * world) (w : world)
  : response * world :=
  match current_user w with
  | Some u => h u w
  | None => (Unauthorized, w)
  end.

(** A handler body: an exception gives a 500 and leaves the state as it was
    when the request came in. *)
Definition run (w : world) (m : exc (response * world)) : response * world :=
  match m with
  | Ok rw => rw
  | Raise e => (ServerError e, w)
  end.

Definition with_store (w : world) (d : db) : world := mkWorld d (session w).

Definition message (s : string) : pyval := PDict [("message", PStr s)].
Definition error (s : string) : pyval := PDict [("error", PStr s)].

(** Assignments to the token attributes of a user. *)
Definition set_twitch_token (t : pyval) (u : User) : User :=
  mkUser (id u) (username u) (email u) (password_hash u)
         t (twitter_token u) (instagram_token u) (discord_token u) (created_at u).
Definition set_twitter_token (t : pyval) (u : User) : User :=
  mkUser (id u) (username u) (email u) (password_hash u)
         (twitch_token u) t (instagram_token u) (discord_token u) (created_at u).
Definition set_instagram_token (t : pyval) (u : User) : User :=
  mkUser (id u) (username u) (email u) (password_hash u)
         (twitch_token u) (twitter_token u) t (discord_token u) (created_at u).
Definition set_discord_token (t : pyval) (u : User) : User :=
  mkUser (id u) (username u) (email u) (password_hash u)
         (twitch_token u) (twitter_token u) (instagram_token u) t (created_at u).

(** ** Handlers *)

Section Handlers.

(** [datetime.fromisoformat] on a string ([None]: it raises [ValueError])
    and [datetime.isoformat]. *)
Variable fromisoformat : string -> option datetime.
Variable isoformat : datetime -> string.

(** [datetime.fromisoformat(v)] on a Python value. *)
Definition parse_datetime (v : pyval) : exc datetime :=
  match v with
  | PStr s => match fromisoformat s with
              | Some t => Ok t
              | None => Raise ValueError
              end
  | _ => Raise TypeError
  end.

Definition health_check (w : world) : response * world :=
  (Json 200 (PDict [("status", PStr "healthy");
                    ("message", PStr "Backend is running")]), w).

(** POST /api/auth/register; [now] is what [datetime.utcnow] returns when
    the row is inserted. *)
Definition register (now : datetime) (data : pyval) (w : world)
  : response * world :=
  run w (
    uname <- subscript data "username" ;;
    found <- first_user_by username uname (store w) ;;
    match found with
    | Some _ => Ok (Json 400 (error "Username already exists"), w)
    | None =>
        mail <- subscript data "email" ;;
        found' <- first_user_by email mail (store w) ;;
        match found' with
        | Some _ => Ok (Json 400 (error "Email already exists"), w)
        | None =>
            uname' <- subscript data "username" ;;
            mail' <- subscript data "email" ;;
            pw <- subscript data "password" ;;
            let user := mkUser (next_id (map id (users (store w))))
                               uname' mail' pw PNone PNone PNone PNone now in
            d <- insert_user user (store w) ;;
            Ok (Json 201 (message "User registered successfully"),
                with_store w d)
        end
    end).

(** POST /api/auth/login *)
Definition login (data : pyval) (w : world) : response * world :=
  run w (
    uname <- subscript data "username" ;;
    found <- first_user_by username uname (store w) ;;
    match found with
    | Some user =>
        pw <- subscript data "password" ;;
        if py_eq (password_hash user) pw then
          Ok (Json 200 (PDict [("message", PStr "Login successful");
                               ("user", PDict [("id", PInt (id user));
                                               ("username", username user);
                                               ("email", email user)])]),
              mkWorld (store w) (Some (id user)))
        else Ok (Json 401 (error "Invalid credentials"), w)
    | None => Ok (Json 401 (error "Invalid credentials"), w)
    end).

(** POST /api/auth/logout *)
Definition logout : world -> response * world :=
  login_required (fun _ w =>
    (Json 200 (message "Logout successful"), mkWorld (store w) None)).

(** GET /api/auth/profile *)
Definition profile_json (u : User) : pyval :=
  PDict [("id", PInt (id u));
         ("username", username u);
         ("email", email u);
         ("platforms",
          PDict [("twitch", PBool (truthy (twitch_token u)));
                 ("twitter", PBool (truthy (twitter_token u)));
                 ("instagram", PBool (truthy (instagram_token u)));
                 ("discord", PBool (truthy (discord_token u)))])].

Definition get_profile : world -> response * world :=
  login_required (fun u w => (Json 200 (profile_json u), w)).

(** GET /api/content *)
Definition content_json (c : ScheduledContent) : pyval :=
  PDict [("id", PInt (c_id c));
         ("title", title c);
         ("content", content c);
         ("content_type", content_type c);
         ("platforms", platforms c);
         ("scheduled_for", PStr (isoformat (scheduled_for c)));
         ("hashtags", hashtags c);
         ("mentions", mentions c);
         ("files", files c);
         ("status", status c);
         ("created_at", PStr (isoformat (c_created_at c)))].

Definition query_contents (u : User) (d : db) : list ScheduledContent :=
  order_by_desc (filter (fun c => user_id c =? id u) (contents d)).

Definition get_content : world -> response * world :=
  login_required (fun u w =>
    (Json 200 (PList (map content_json (query_contents u (store w)))), w)).

(** POST /api/content; [now] is what [datetime.utcnow] returns when the row
    is inserted. *)
Definition create_content (now : datetime) (data : pyval)
  : world -> response * world :=
  login_required (fun u w => run w (
    t <- subscript data "title" ;;
    body <- subscript data "content" ;;
    ctype <- get_default data "content_type" (PStr "text") ;;
    plats <- get_default data "platforms" (PStr "[]") ;;
    raw <- subscript data "scheduled_for" ;;
    sched <- parse_datetime raw ;;
    tags <- get data "hashtags" ;;
    ments <- get data "mentions" ;;
    fs <- get_default data "files" (PStr "[]") ;;
    let row := mkContent (next_id (map c_id (contents (store w))))
                         t body ctype plats sched tags ments fs
                         (PStr "pending") (id u) now in
    d <- insert_content row (store w) ;;
    Ok (Json 201 (PDict [("id", PInt (c_id row));
                         ("message", PStr "Content scheduled successfully")]),
        with_store w d))).

(** PUT /api/content/<int:content_id> *)
Definition update_content (content_id : Z) (data : pyval)
  : world -> response * world :=
  login_required (fun u w => run w (
    found <- first_content content_id (id u) (store w) ;;
    match found with
    | None => Ok (Json 404 (error "Content not found"), w)
    | Some c =>
        t <- get_default data "title" (title c) ;;
        body <- get_default data "content" (content c) ;;
        ctype <- get_default data "content_type" (content_type c) ;;
        plats <- get_default data "platforms" (platforms c) ;;
        sched <- (if contains data "scheduled_for"
                  then raw <- subscript data "scheduled_for" ;; parse_datetime raw
                  else Ok (scheduled_for c)) ;;
        tags <- get_default data "hashtags" (hashtags c) ;;
        ments <- get_default data "mentions" (mentions c) ;;
        fs <- get_default data "files" (files c) ;;
        let c' := mkContent (c_id c) t body ctype plats sched tags ments fs
                            (status c) (user_id c) (c_created_at c) in
        d <- save_content c c' (store w) ;;
        Ok (Json 200 (message "Content updated successfully"), with_store w d)
    end)).

(** DELETE /api/content/<int:content_id> *)
Definition delete_content (content_id : Z) : world -> response * world :=
  login_required (fun u w => run w (
    found <- first_content content_id (id u) (store w) ;;
    match found with
    | None => Ok (Json 404 (error "Content not found"), w)
    | Some c =>
        Ok (Json 200 (message "Content deleted successfully"),
            with_store w (remove_content c (store w)))
    end)).

(** POST /api/platforms/connect/<platform> *)
Definition connect_platform (platform : string) (data : pyval)
  : world -> response * world :=
  login_required (fun u w => run w (
    token <- get data "token" ;;
    let commit assign :=
      d <- save_user assign token u (store w) ;;
      Ok (Json 200 (message (platform ++ " connected successfully")),
          with_store w d) in
    if String.eqb platform "twitch" then commit set_twitch_token
    else if String.eqb platform "twitter" then commit set_twitter_token
    else if String.eqb platform "instagram" then commit set_instagram_token
    else if String.eqb platform "discord" then commit set_discord_token
    else Ok (Json 400 (error "Invalid platform"), w))).

(** POST /api/platforms/disconnect/<platform> *)
Definition disconnect_platform (platform : string)
  : world -> response * world :=
  login_required (fun u w => run w (
    let commit assign :=
      d <- save_user assign PNone u (store w) ;;
      Ok (Json 200 (message (platform ++ " disconnected successfully")),
          with_store w d) in
    if String.eqb platform "twitch" then commit set_twitch_token
    else if String.eqb platform "twitter" then commit set_twitter_token
    else if String.eqb platform "instagram" then commit set_instagram_token
    else if String.eqb platform "discord" then commit set_discord_token
    else Ok (Json 400 (error "Invalid platform"), w))).

End Handlers.

(** ** Sample states and requests

    Two registered users, three scheduled rows, and the first user logged
    in; the handlers are run on them in the examples at the end. *)

Definition alice : User :=
  mkUser 1 (PStr "alice") (PStr "alice@example.org") (PStr "wonderland")
         PNone PNone PNone PNone 20240101000000.

Definition bob : User :=
  mkUser 2 (PStr "bob") (PStr "bob@example.org") (PStr "builder")
         (PStr "tw-bob") PNone PNone PNone 20240102000000.

Definition post (k : Z) (t : string) (at_ : datetime) (owner : Z)
  : ScheduledContent :=
  mkContent k (PStr t) (PStr "body") (PStr "text") (PStr "[]") at_
            PNone PNone (PStr "[]") (PStr "pending") owner 20240103000000.

Definition sample_db : db :=
  mkDb [alice; bob]
       [post 1 "first" 20250101000000 1;
        post 2 "other" 20250201000000 2;
        post 3 "third" 20250301000000 1].

Definition sample_world : world := mkWorld sample_db (Some 1).

Definition login_request (name pw : string) : list (string * pyval) :=
  [("username", PStr name); ("password", PStr pw)].

Definition register_request (name mail pw : string) : list (string * pyval) :=
  [("username", PStr name); ("email", PStr mail); ("password", PStr pw)].

Definition create_request (t body at_ : string) : list (string * pyval) :=
  [("title", PStr t); ("content", PStr body); ("scheduled_for", PStr at_)].

(** ** Observations used to state the properties *)

(** The closed set of platform names the handlers test for. *)
Definition platform_names : list string :=
  ["twitch"; "twitter"; "instagram"; "discord"].

(** The token column a platform name selects. *)
Definition token_of (platform : string) (u : User) : pyval :=
  if String.eqb platform "twitch" then twitch_token u
  else if String.eqb platform "twitter" then twitter_token u
  else if String.eqb platform "instagram" then instagram_token u
  else if String.eqb platform "discord" then discord_token u
  else PNone.

(** [response.json['platforms'][platform]] of a profile response. *)
Definition platform_flag (platform : string) (r : response) : option pyval :=
  match r with
  | Json _ (PDict body) =>
      match dict_get "platforms" body with
      | Some (PDict flags) => dict_get platform flags
      | _ => None
      end
  | _ => None
  end.

(** The value a payload gives a key, or the fallback. *)
Definition or_default (o : option pyval) (fallback : pyval) : pyval :=
  match o with
  | Some v => v
  | None => fallback
  end.




(** A column after an update that answered 200: as before when the payload
    lacks the key or gives a value equal to the loaded one, else what the
    store keeps for the payload's value. *)
Definition written (o : option pyval) (before after : pyval) : Prop :=
  match o with
  | None => after = before
  | Some v =>
      (py_eq before v = true /\ after = before) \/ bind_text v = Ok after
  end.


(** [scheduled_for] does not increase along the list. *)
Definition desc (x y : ScheduledContent) : Prop :=
  scheduled_for y <= scheduled_for x.

(** Primary keys and the unique username column. *)
Definition content_keys (w : world) : list Z := map c_id (contents (store w)).



(** The assignment to the token column a platform name selects. *)
Definition set_token (platform : string) (t : pyval) (u : User) : User :=
  if String.eqb platform "twitch" then set_twitch_token t u
  else if String.eqb platform "twitter" then set_twitter_token t u
  else if String.eqb platform "instagram" then set_instagram_token t u
  else if String.eqb platform "discord" then set_discord_token t u
  else u.

(** ** The route table

    One constructor per [@app.route]: the method and path select the
    handler, the JSON body and the path parameters are its arguments. *)

Inductive request : Type :=
| GetHealth
| PostRegister (data : pyval)
| PostLogin (data : pyval)
| PostLogout
| GetProfile
| GetContent
| PostContent (data : pyval)
| PutContent (content_id : Z) (data : pyval)
| DeleteContent (content_id : Z)
| PostConnect (platform : string) (data : pyval)
| PostDisconnect (platform : string).

(** Serving one request; [now] is the clock reading used for [created_at]. *)
Definition handle (fromisoformat : string -> option datetime)
    (isoformat : datetime -> string) (now : datetime) (req : request)
  : world -> response * world :=
  match req with
  | GetHealth => health_check
  | PostRegister data => register now data
  | PostLogin data => login data
  | PostLogout => logout
  | GetProfile => get_profile
  | GetContent => get_content isoformat
  | PostContent data => create_content fromisoformat now data
  | PutContent cid data => update_content fromisoformat cid data
  | DeleteContent cid => delete_content cid
  | PostConnect p data => connect_platform p data
  | PostDisconnect p => disconnect_platform p
  end.

(** Serving a sequence of timestamped requests of one client. *)
Definition serve (fromisoformat : string -> option datetime)
    (isoformat : datetime -> string) (reqs : list (datetime * request))
    (w : world) : world :=
  fold_left (fun w r => snd (handle fromisoformat isoformat (fst r) (snd r) w))
            reqs w.

(** The routes behind [@login_required]. *)
Definition protected (req : request) : bool :=
  match req with
  | GetHealth | PostRegister _ | PostLogin _ => false
  | _ => true
  end.

(** The state after [db.create_all()], nobody logged in. *)
Definition empty_world : world := mkWorld (mkDb [] []) None.

(** ** Store invariants *)

Definition user_keys (w : world) : list Z := map id (users (store w)).

(** The primary keys of both tables are unique. *)
Definition primary_keys_ok (w : world) : Prop :=
  NoDup (user_keys w) /\ NoDup (content_keys w).

(** No two stored users compare equal on a column. *)
Definition distinct_on (col : User -> pyval) (l : list User) : Prop :=
  ForallOrdPairs (fun a b => py_eq (col a) (col b) = false) l.

Definition unique_ok (w : world) : Prop :=
  distinct_on username (users (store w)) /\ distinct_on email (users (store w)).

(** The [nullable=False] columns hold a value. *)
Definition user_not_null (u : User) : Prop :=
  username u <> PNone /\ email u <> PNone /\ password_hash u <> PNone.

Definition content_not_null (c : ScheduledContent) : Prop :=
  title c <> PNone /\ content c <> PNone.

Definition not_null_ok (w : world) : Prop :=
  Forall user_not_null (users (store w)) /\
  Forall content_not_null (contents (store w)).

(** Every content row belongs to a stored user. *)
Definition owners_ok (w : world) : Prop :=
  Forall (fun c => In (user_id c) (user_keys w)) (contents (store w)).

(** The session, when set, names a stored user. *)
Definition session_ok (w : world) : Prop :=
  match session w with
  | Some uid => In uid (user_keys w)
  | None => True
  end.

(** The rows of the content table that belong to other users than [uid]. *)
Definition rows_of_others (uid : Z) (w : world) : list ScheduledContent :=
  filter (fun c => negb (user_id c =? uid)) (contents (store w)).

(** The stored users other than [uid]. *)
Definition other_users (uid : Z) (w : world) : list User :=
  filter (fun x => negb (id x =? uid)) (users (store w)).

(** The response is a success (200 or 201). *)
Definition succeeded (r : response) : bool :=
  (status_code r =? 200) || (status_code r =? 201).

(** Nothing assigns [status]: every row has the column default. *)
Definition all_pending (w : world) : Prop :=
  Forall (fun c => status c = PStr "pending") (contents (store w)).

(** The columns of a user no handler assigns after registration. *)
Definition identity_columns (u : User) : Z * pyval * pyval * pyval * datetime :=
  (id u, username u, email u, password_hash u, created_at u).

(** ** The effects a request can have on the state

    One constructor per kind of commit or session change in the handlers. *)

Inductive transition (w : world) : world -> Prop :=
| T_same : transition w w
| T_login (u : User) :
    In u (users (store w)) ->
    transition w (mkWorld (store w) (Some (id u)))
| T_logout (u : User) :
    current_user w = Some u ->
    transition w (mkWorld (store w) None)
| T_register (new : User) :
    id new = next_id (user_keys w) ->
    user_not_null new ->
    (forall x, In x (users (store w)) ->
       py_eq (username x) (username new) = false /\
       py_eq (email x) (email new) = false) ->
    transition w (with_store w (mkDb (users (store w) ++ [new])
                                     (contents (store w))))
| T_create (u : User) (row : ScheduledContent) :
    current_user w = Some u ->
    c_id row = next_id (content_keys w) ->
    user_id row = id u ->
    content_not_null row ->
    status row = PStr "pending" ->
    transition w (with_store w (mkDb (users (store w))
                                     (contents (store w) ++ [row])))
| T_update (u : User) (c c' : ScheduledContent) :
    current_user w = Some u ->
    In c (contents (store w)) ->
    user_id c = id u ->
    c_id c' = c_id c -> user_id c' = user_id c -> status c' = status c ->
    content_not_null c' ->
    transition w
      (with_store w
         (mkDb (users (store w))
               (map (fun r => if c_id r =? c_id c then c' else r)
                    (contents (store w)))))
| T_delete (u : User) (c : ScheduledContent) :
    current_user w = Some u ->
    In c (contents (store w)) ->
    user_id c = id u ->
    transition w (with_store w (remove_content c (store w)))
| T_token (u : User) (platform : string) (token : pyval) :
    current_user w = Some u ->
    transition w (with_store w (replace_user (set_token platform token u)
                                             (store w))).

(** ** The commit-message filter ([scripts/strip-commit-msg-filter.py])

    Byte strings are [string]s (sequences of 8-bit characters). *)

Definition newline : ascii := ascii_of_nat 10.

(** [data.split(b'\n')] *)
Fixpoint split (data : string) : list string :=
  match data with
  | EmptyString => [EmptyString]
  | String c rest =>
      if Ascii.eqb c newline then EmptyString :: split rest
      else match split rest with
           | line :: lines => String c line :: lines
           | [] => [String c EmptyString]
           end
  end.

(** [b'\n'.join(out)] *)
Fixpoint join (out : list string) : string :=
  match out with
  | [] => EmptyString
  | [line] => line
  | line :: rest => (line ++ String newline (join rest))%string
  end.

(** [line.lower()]: the ASCII letters [A]..[Z] are mapped to [a]..[z]. *)
Definition lower_byte (c : ascii) : ascii :=
  let n := nat_of_ascii c in
  if (Nat.leb 65 n && Nat.leb n 90)%bool then ascii_of_nat (n + 32) else c.

Fixpoint lower (line : string) : string :=
  match line with
  | EmptyString => EmptyString
  | String c rest => String (lower_byte c) (lower rest)
  end.

Fixpoint starts_with (sub s : string) : bool :=
  match sub, s with
  | EmptyString, _ => true
  | String a sub', String b s' => Ascii.eqb a b && starts_with sub' s'
  | String _ _, EmptyString => false
  end.

(** [sub in s] on byte strings. *)
Fixpoint bytes_in (sub s : string) : bool :=
  starts_with sub s ||
  match s with
  | EmptyString => false
  | String _ s' => bytes_in sub s'
  end.

(** The test of the loop: the line is skipped. *)
Definition skipped (line : string) : bool :=
  let lower := lower line in
  bytes_in "co-authored-by" lower &&
  (bytes_in "cursoragent" lower || bytes_in "cursor" line).

(** [main]: from the bytes read on stdin to the bytes written on stdout. *)
Definition main (data : string) : string :=
  join (filter (fun line => negb (skipped line)) (split data)).

(** The line separator occurs in the byte string. *)
Fixpoint has_newline (s : string) : bool :=
  match s with
  | EmptyString => false
  | String c rest => Ascii.eqb c newline || has_newline rest
  end.

(** The lines [main] keeps. *)
Definition kept (data : string) : list string :=
  filter (fun line => negb (skipped line)) (split data).

(** A commit message with a trailer to strip. *)
Definition sample_message : string :=
  "Fix the scheduler" ++ String newline
  ("" ++ String newline
  ("Co-authored-by: Cursor <cursoragent@cursor.com>" ++ String newline
  ("Signed-off-by: A" ++ String newline ""))).

(** ** Basic facts *)

Lemma py_eq_str (v : pyval) (s : string) :
  py_eq v (PStr s) = true <-> v = PStr s.
Proof.
  destruct v; simpl; split; intros H; try discriminate; try congruence.
  - apply String.eqb_eq in H. now subst.
  - inversion H. apply String.eqb_refl.
Qed.

Lemma find_ext_none {A} (p : A -> bool) (l : list A) :
  find p l = None <-> (forall x, In x l -> p x = false).
Proof.
  split.
  - intros H x Hx. exact (find_none p l H x Hx).
  - induction l as [|a l IH]; simpl; intros H; [reflexivity|].
    rewrite (H a (or_introl eq_refl)). apply IH. intros x Hx. apply H. now right.
Qed.

Lemma NoDup_map_inj {A B} (f : A -> B) (l : list A) (x y : A) :
  NoDup (map f l) -> In x l -> In y l -> f x = f y -> x = y.
Proof.
  induction l as [|a l IH]; simpl; intros Hnd Hx Hy Hxy; [contradiction|].
  inversion Hnd as [|? ? Hnotin Hnd']; subst.
  destruct Hx as [->|Hx], Hy as [->|Hy]; auto.
  - exfalso. apply Hnotin. rewrite Hxy. now apply in_map.
  - exfalso. apply Hnotin. rewrite <- Hxy. now apply in_map.
Qed.

Lemma next_id_above (ids : list Z) (k : Z) : In k ids -> k < next_id ids.
Proof.
  unfold next_id. induction ids as [|a ids IH]; cbn [fold_right In]; intros H;
    [contradiction|].
  destruct H as [->|H]; [lia|]. specialize (IH H). lia.
Qed.

Lemma next_id_fresh (ids : list Z) : ~ In (next_id ids) ids.
Proof. intros H. apply next_id_above in H. lia. Qed.

(** *** Ordering *)

Lemma insert_desc_perm (c : ScheduledContent) (l : list ScheduledContent) :
  Permutation (c :: l) (insert_desc c l).
Proof.
  induction l as [|r l IH]; simpl; [constructor; constructor|].
  destruct (scheduled_for r <=? scheduled_for c).
  - apply Permutation_refl.
  - eapply perm_trans; [apply perm_swap|]. now constructor.
Qed.

Lemma order_by_desc_perm (l : list ScheduledContent) :
  Permutation l (order_by_desc l).
Proof.
  induction l as [|c l IH]; simpl; [constructor|].
  eapply perm_trans; [|apply insert_desc_perm]. now constructor.
Qed.

Lemma insert_desc_sorted (c : ScheduledContent) (l : list ScheduledContent) :
  StronglySorted desc l -> StronglySorted desc (insert_desc c l).
Proof.
  induction l as [|r l IH]; simpl; intros Hs.
  - constructor; [constructor|constructor].
  - apply StronglySorted_inv in Hs. destruct Hs as [Hs Hr].
    destruct (scheduled_for r <=? scheduled_for c) eqn:E.
    + apply Z.leb_le in E. constructor.
      * now constructor.
      * constructor; [exact E|].
        eapply Forall_impl; [|exact Hr]. unfold desc. intros; lia.
    + apply Z.leb_gt in E. constructor; [now apply IH|].
      eapply Permutation_Forall; [apply insert_desc_perm|].
      constructor; [unfold desc; lia|exact Hr].
Qed.

Lemma order_by_desc_sorted (l : list ScheduledContent) :
  StronglySorted desc (order_by_desc l).
Proof.
  induction l as [|c l IH]; simpl; [constructor|].
  now apply insert_desc_sorted.
Qed.

Lemma order_by_desc_in (l : list ScheduledContent) (c : ScheduledContent) :
  In c (order_by_desc l) <-> In c l.
Proof.
  split; apply Permutation_in;
    [apply Permutation_sym|]; apply order_by_desc_perm.
Qed.

(** ** Properties of the handlers *)

Section Properties.

Variable fromisoformat : string -> option datetime.
Variable isoformat : datetime -> string.

(** *** Listing *)

Lemma query_contents_perm (u : User) (d : db) :
  Permutation (filter (fun c => user_id c =? id u) (contents d))
              (query_contents u d).
Proof using Type. apply order_by_desc_perm. Qed.

Lemma query_contents_in (u : User) (d : db) (c : ScheduledContent) :
  In c (query_contents u d) <-> In c (contents d) /\ user_id c = id u.
Proof using Type.
  unfold query_contents. rewrite order_by_desc_in, filter_In.
  now rewrite Z.eqb_eq.
Qed.

(** C1. With user A logged in, the listing answers 200 with the JSON of
    exactly the stored rows whose [user_id] is A's id: every listed row is
    owned by A, none is owned by a user B with another id, and the rows come
    with [scheduled_for] descending. *)
Theorem get_content_own_rows_descending (w : world) (a : User) :
  current_user w = Some a ->
  exists rows,
    get_content isoformat w
      = (Json 200 (PList (map (content_json isoformat) rows)), w) /\
    Permutation (filter (fun c => user_id c =? id a) (contents (store w))) rows /\
    Forall (fun c => In c (contents (store w)) /\ user_id c = id a) rows /\
    (forall b : User, id b <> id a ->
       forall c, In c rows -> user_id c <> id b) /\
    StronglySorted desc rows.
Proof using Type.
  intros Hcur. exists (query_contents a (store w)).
  split; [|split; [|split; [|split]]].
  - unfold get_content, login_required. now rewrite Hcur.
  - apply query_contents_perm.
  - apply Forall_forall. intros c Hc. now apply query_contents_in in Hc.
  - intros b Hb c Hc. apply query_contents_in in Hc. destruct Hc as [_ Hc].
    congruence.
  - apply order_by_desc_sorted.
Qed.

(** *** Registration and login *)

Lemma sql_eq_str (v : pyval) (s : string) :
  sql_eq v (PStr s) = true <-> v = PStr s.
Proof using Type.
  destruct v; cbn; split; intros H; try discriminate; try congruence.
  - apply String.eqb_eq in H. now subst.
  - inversion H. apply String.eqb_refl.
Qed.

(** A string parameter is bound as it is: the query does not raise. *)
Lemma first_user_by_str (col : User -> pyval) (s : string) (d : db) :
  first_user_by col (PStr s) d
  = Ok (find (fun u => sql_eq (col u) (PStr s)) (users d)).
Proof using Type. reflexivity. Qed.

Lemma first_user_by_cases (col : User -> pyval) (s : string) (d : db) :
  (exists u, first_user_by col (PStr s) d = Ok (Some u)) \/
  first_user_by col (PStr s) d = Ok None.
Proof using Type.
  rewrite first_user_by_str. destruct (find _ _) as [u|]; [left; now exists u|now right].
Qed.

Lemma first_user_by_some (col : User -> pyval) (s : string) (d : db) (u : User) :
  first_user_by col (PStr s) d = Ok (Some u) -> In u (users d) /\ col u = PStr s.
Proof using Type.
  rewrite first_user_by_str. intros H. inversion H as [H']. apply find_some in H'.
  destruct H' as [Hin Heq]. now apply sql_eq_str in Heq.
Qed.







(** *** Creating content *)




Lemma get_default_dict (d : list (string * pyval)) (k : string) (v : pyval) :
  get_default (PDict d) k v = Ok (or_default (dict_get k d) v).
Proof using Type. unfold get_default, or_default. now destruct (dict_get k d). Qed.

Lemma get_dict (d : list (string * pyval)) (k : string) :
  get (PDict d) k = Ok (or_default (dict_get k d) PNone).
Proof using Type. apply get_default_dict. Qed.



(** C6. For a logged-in user, a create request that lacks [title],
    [content] or [scheduled_for], or whose [scheduled_for] value
    [fromisoformat] rejects, ends in an uncaught [KeyError], [ValueError] or
    [TypeError]: the answer is the generic 500, not a JSON error, and the
    state (hence the content table) is as before. *)
Theorem create_content_unvalidated (now : datetime) (w : world) (u : User)
    (d : list (string * pyval)) :
  current_user w = Some u ->
  dict_get "title" d = None \/
  dict_get "content" d = None \/
  dict_get "scheduled_for" d = None \/
  (exists v, dict_get "scheduled_for" d = Some v /\
             forall ts, parse_datetime fromisoformat v <> Ok ts) ->
  exists e,
    create_content fromisoformat now (PDict d) w = (ServerError e, w) /\
    status_code (fst (create_content fromisoformat now (PDict d) w)) = 500 /\
    (e = KeyError "title" \/ e = KeyError "content" \/
     e = KeyError "scheduled_for" \/ e = ValueError \/ e = TypeError).
Proof using Type.
  intros Hcur Hbad. unfold create_content, login_required. rewrite Hcur.
  unfold subscript. rewrite !get_default_dict.
  destruct (dict_get "title" d) as [vt|] eqn:Et; cbn [bind run];
    [|eexists; repeat split; auto].
  destruct (dict_get "content" d) as [vb|] eqn:Eb; cbn [bind run];
    [|eexists; repeat split; auto].
  destruct (dict_get "scheduled_for" d) as [vs|] eqn:Es; cbn [bind run];
    [|eexists; repeat split; auto 6].
  destruct (parse_datetime fromisoformat vs) as [ts|e] eqn:Ep; cbn [bind run].
  - exfalso. destruct Hbad as [H|[H|[H|[v [Hv Hp]]]]]; try discriminate.
    inversion Hv; subst v. now apply (Hp ts).
  - exists e. split; [reflexivity|]. split; [reflexivity|].
    unfold parse_datetime in Ep.
    destruct vs; try (inversion Ep; auto 6).
    destruct (fromisoformat s); inversion Ep; auto 6.
Qed.

(** *** Updating content *)

Lemma first_content_some (cid uid : Z) (d : db) (c : ScheduledContent) :
  first_content cid uid d = Ok (Some c) ->
  In c (contents d) /\ c_id c = cid /\ user_id c = uid.
Proof using Type.
  unfold first_content.
  destruct (find _ (contents d)) as [x|] eqn:F.
  - intros H. inversion H; subst x. apply find_some in F. destruct F as [Hin F].
    apply andb_true_iff in F. now rewrite !Z.eqb_eq in F.
  - destruct (in_int64 cid); discriminate.
Qed.

Lemma no_row_find (cid uid : Z) (d : db) :
  find (fun c => (c_id c =? cid) && (user_id c =? uid)) (contents d) = None <->
  (forall c, In c (contents d) -> c_id c = cid -> user_id c <> uid).
Proof using Type.
  rewrite find_ext_none. split; intros H c Hc.
  - intros E1 E2. specialize (H c Hc). apply andb_false_iff in H.
    rewrite !Z.eqb_neq in H. destruct H as [H|H]; now apply H.
  - apply andb_false_iff. rewrite !Z.eqb_neq.
    destruct (Z.eq_dec (c_id c) cid) as [E|E]; [right|left]; auto.
Qed.

Lemma first_content_none (cid uid : Z) (d : db) :
  first_content cid uid d = Ok None <->
  in_int64 cid = true /\
  (forall c, In c (contents d) -> c_id c = cid -> user_id c <> uid).
Proof using Type.
  rewrite <- no_row_find. unfold first_content.
  destruct (find _ (contents d)) as [x|].
  - split; [discriminate|intros [_ H]; discriminate].
  - destruct (in_int64 cid); split; try discriminate; auto.
    intros [H _]. discriminate.
Qed.


Lemma py_eq_refl_bound (v x : pyval) : bind_text v = Ok x -> py_eq v v = true.
Proof using Type.
  destruct v; cbn; try discriminate; intros _.
  - reflexivity.
  - apply Bool.eqb_reflx.
  - apply Z.eqb_refl.
  - apply String.eqb_refl.
Qed.

Lemma write_column_written (o : option pyval) (loaded x : pyval) :
  write_column loaded (or_default o loaded) = Ok x -> written o loaded x.
Proof using Type.
  destruct o as [v|]; cbn [or_default written]; unfold write_column.
  - destruct (py_eq loaded v) eqn:E; intros H.
    + left. split; [reflexivity|]. now inversion H.
    + now right.
  - destruct (py_eq loaded loaded) eqn:E; intros H; [now inversion H|].
    apply py_eq_refl_bound in H. congruence.
Qed.

(** What a request to [update_content] can do to the state: nothing, or
    replace the row it loaded by a row that differs in the eight assigned
    columns only, each written from the payload or kept. *)
Lemma update_content_outcome (cid : Z) (data : pyval) (w : world) :
  snd (update_content fromisoformat cid data w) = w /\
  status_code (fst (update_content fromisoformat cid data w)) <> 200
  \/
  exists u c c',
    current_user w = Some u /\
    In c (contents (store w)) /\ c_id c = cid /\ user_id c = id u /\
    update_content fromisoformat cid data w
    = (Json 200 (message "Content updated successfully"),
       with_store w
         (mkDb (users (store w))
               (map (fun r => if c_id r =? c_id c then c' else r)
                    (contents (store w))))) /\
    c_id c' = c_id c /\ status c' = status c /\ user_id c' = user_id c /\
    c_created_at c' = c_created_at c /\
    content_not_null c' /\
    forall d, data = PDict d ->
      written (dict_get "title" d) (title c) (title c') /\
      written (dict_get "content" d) (content c) (content c') /\
      written (dict_get "content_type" d) (content_type c) (content_type c') /\
      written (dict_get "platforms" d) (platforms c) (platforms c') /\
      written (dict_get "hashtags" d) (hashtags c) (hashtags c') /\
      written (dict_get "mentions" d) (mentions c) (mentions c') /\
      written (dict_get "files" d) (files c) (files c') /\
      match dict_get "scheduled_for" d with
      | Some v => parse_datetime fromisoformat v = Ok (scheduled_for c')
      | None => scheduled_for c' = scheduled_for c
      end.
Proof using Type.
  unfold update_content, login_required.
  destruct (current_user w) as [u|] eqn:Hcur; [|left; split; [reflexivity|discriminate]].
  destruct (first_content cid (id u) (store w)) as [[c|]|e] eqn:Hc;
    cbn [bind run]; try (left; split; [reflexivity|discriminate]).
  apply first_content_some in Hc. destruct Hc as (Hin & Hid & Hown).
  destruct data as [| | | | |d];
    try (left; split; [reflexivity|discriminate]).
  rewrite !get_default_dict. cbn [bind contains subscript].
  assert (Hsched :
    forall ts,
      let c1 := mkContent (c_id c)
                  (or_default (dict_get "title" d) (title c))
                  (or_default (dict_get "content" d) (content c))
                  (or_default (dict_get "content_type" d) (content_type c))
                  (or_default (dict_get "platforms" d) (platforms c)) ts
                  (or_default (dict_get "hashtags" d) (hashtags c))
                  (or_default (dict_get "mentions" d) (mentions c))
                  (or_default (dict_get "files" d) (files c))
                  (status c) (user_id c) (c_created_at c) in
      let res := run w (d0 <- save_content c c1 (store w) ;;
                        Ok (Json 200 (message "Content updated successfully"),
                            with_store w d0)) in
      snd res = w /\ status_code (fst res) <> 200 \/
      exists c',
        res = (Json 200 (message "Content updated successfully"),
               with_store w
                 (mkDb (users (store w))
                       (map (fun r => if c_id r =? c_id c then c' else r)
                            (contents (store w))))) /\
        c_id c' = c_id c /\ status c' = status c /\ user_id c' = user_id c /\
        c_created_at c' = c_created_at c /\ content_not_null c' /\
        written (dict_get "title" d) (title c) (title c') /\
        written (dict_get "content" d) (content c) (content c') /\
        written (dict_get "content_type" d) (content_type c) (content_type c') /\
        written (dict_get "platforms" d) (platforms c) (platforms c') /\
        written (dict_get "hashtags" d) (hashtags c) (hashtags c') /\
        written (dict_get "mentions" d) (mentions c) (mentions c') /\
        written (dict_get "files" d) (files c) (files c') /\
        scheduled_for c' = ts).
  { intros ts. cbn zeta. unfold save_content.
    cbn [title content content_type platforms hashtags mentions files
         scheduled_for c_id].
    destruct (write_column (title c) _) as [x1|] eqn:W1; cbn [bind run];
      [|left; split; [reflexivity|discriminate]].
    destruct (write_column (content c) _) as [x2|] eqn:W2; cbn [bind run];
      [|left; split; [reflexivity|discriminate]].
    destruct (write_column (content_type c) _) as [x3|] eqn:W3; cbn [bind run];
      [|left; split; [reflexivity|discriminate]].
    destruct (write_column (platforms c) _) as [x4|] eqn:W4; cbn [bind run];
      [|left; split; [reflexivity|discriminate]].
    destruct (write_column (hashtags c) _) as [x5|] eqn:W5; cbn [bind run];
      [|left; split; [reflexivity|discriminate]].
    destruct (write_column (mentions c) _) as [x6|] eqn:W6; cbn [bind run];
      [|left; split; [reflexivity|discriminate]].
    destruct (write_column (files c) _) as [x7|] eqn:W7; cbn [bind run];
      [|left; split; [reflexivity|discriminate]].
    destruct (is_none x1) eqn:N1; [left; split; [reflexivity|discriminate]|].
    destruct (is_none x2) eqn:N2; [left; split; [reflexivity|discriminate]|].
    cbn [orb bind run]. right. eexists. split; [reflexivity|].
    cbn [c_id status user_id c_created_at title content content_type platforms
         hashtags mentions files scheduled_for].
    do 4 (split; [reflexivity|]).
    split; [split; cbn; intros ->; discriminate|].
    repeat (split; [now apply write_column_written|]). reflexivity. }
  destruct (dict_get "scheduled_for" d) as [v|] eqn:Es; cbn [bind].
  - destruct (parse_datetime fromisoformat v) as [ts|e] eqn:Ep; cbn [bind];
      [|left; split; [reflexivity|discriminate]].
    destruct (Hsched ts) as [Hfail|(c' & Heq & H1 & H2 & H3 & H4 & H5 & Hw)];
      [left; exact Hfail|].
    right. exists u, c, c'.
    split; [reflexivity|]. split; [exact Hin|]. split; [exact Hid|].
    split; [exact Hown|]. split; [exact Heq|].
    do 5 (split; [assumption|]).
    intros d' Hd. inversion Hd; subst d'. rewrite Es.
    destruct Hw as (? & ? & ? & ? & ? & ? & ? & ?). repeat split; try assumption.
    congruence.
  - destruct (Hsched (scheduled_for c))
      as [Hfail|(c' & Heq & H1 & H2 & H3 & H4 & H5 & Hw)]; [left; exact Hfail|].
    right. exists u, c, c'.
    split; [reflexivity|]. split; [exact Hin|]. split; [exact Hid|].
    split; [exact Hown|]. split; [exact Heq|].
    do 5 (split; [assumption|]).
    intros d' Hd. inversion Hd; subst d'. rewrite Es.
    destruct Hw as (? & ? & ? & ? & ? & ? & ? & ?). repeat split; assumption.
Qed.

Lemma replace_row_column {B} (f : ScheduledContent -> B)
    (l : list ScheduledContent) (c c' : ScheduledContent) :
  NoDup (map c_id l) -> In c l -> f c' = f c ->
  map f (map (fun r => if c_id r =? c_id c then c' else r) l) = map f l.
Proof using Type.
  intros Hnd Hc Hf. rewrite map_map. apply map_ext_in. intros r Hr.
  destruct (c_id r =? c_id c) eqn:E; [|reflexivity].
  apply Z.eqb_eq in E.
  now rewrite (NoDup_map_inj c_id l r c Hnd Hr Hc E).
Qed.





(** A column of the table is as before when the replacing row agrees with
    the replaced one on it. *)
Ltac same_column Hnd Hin :=
  cbn [store with_store contents];
  apply replace_row_column; [exact Hnd | exact Hin | ];
  try congruence.


(** C9. With unique row ids, whatever the payload (a dict with keys such as
    ['status'], ['user_id'], ['created_at'], or any other value), an update
    leaves the [id], [status], [user_id] and [created_at] columns of every
    row as they were: no row changes owner or status. *)
Theorem update_content_keeps_status_owner_created
    (cid : Z) (data : pyval) (w : world) :
  NoDup (content_keys w) ->
  let rows := contents (store w) in
  let rows' := contents (store (snd (update_content fromisoformat cid data w))) in
  map c_id rows' = map c_id rows /\
  map status rows' = map status rows /\
  map user_id rows' = map user_id rows /\
  map c_created_at rows' = map c_created_at rows.
Proof using Type.
  intros Hnd. cbn zeta.
  destruct (update_content_outcome cid data w)
    as [[Hw _]|(u & c & c' & _ & Hin & _ & _ & Heq & Hk & Hst & Hu & Hcr & _)].
  - rewrite Hw. auto.
  - rewrite Heq. cbn [snd]. repeat split; same_column Hnd Hin.
Qed.

(** *** Platform tokens *)

Lemma platform_names_cases (p : string) :
  In p platform_names ->
  p = "twitch" \/ p = "twitter" \/ p = "instagram" \/ p = "discord".
Proof using Type.
  cbn. intros [H|[H|[H|[H|[]]]]]; symmetry in H; auto.
Qed.

Lemma not_platform_name (p : string) :
  ~ In p platform_names ->
  String.eqb p "twitch" = false /\ String.eqb p "twitter" = false /\
  String.eqb p "instagram" = false /\ String.eqb p "discord" = false.
Proof using Type.
  intros H. repeat split; apply String.eqb_neq; intros ->; apply H; cbn; auto.
Qed.

Lemma set_token_id (p : string) (t : pyval) (u : User) :
  id (set_token p t u) = id u.
Proof using Type.
  unfold set_token.
  repeat match goal with |- context [String.eqb ?a ?b] => destruct (String.eqb a b) end;
    reflexivity.
Qed.

Lemma token_of_set_token (p : string) (t : pyval) (u : User) :
  In p platform_names -> token_of p (set_token p t u) = t.
Proof using Type.
  intros H. apply platform_names_cases in H.
  destruct H as [-> | [-> | [-> | -> ]]]; reflexivity.
Qed.

Lemma token_of_set_other (p q : string) (t : pyval) (u : User) :
  q <> p -> token_of q (set_token p t u) = token_of q u.
Proof using Type.
  intros Hne. unfold set_token.
  destruct (String.eqb p "twitch") eqn:E1;
    [|destruct (String.eqb p "twitter") eqn:E2;
      [|destruct (String.eqb p "instagram") eqn:E3;
        [|destruct (String.eqb p "discord") eqn:E4; [|reflexivity]]]];
    match goal with H : String.eqb p _ = true |- _ => apply String.eqb_eq in H; subst p end;
    unfold token_of;
    repeat match goal with
           | |- context [String.eqb q ?b] =>
               let E := fresh "E" in
               destruct (String.eqb q b) eqn:E;
               [apply String.eqb_eq in E; try congruence|]
           end; try reflexivity; try discriminate.
Qed.

Lemma find_map_key (g : User -> User) (k : Z) (l : list User) :
  (forall x, id (g x) = id x) ->
  find (fun x => id x =? k) (map g l) = option_map g (find (fun x => id x =? k) l).
Proof using Type.
  intros Hg. induction l as [|a l IH]; cbn; [reflexivity|].
  rewrite Hg. now destruct (id a =? k).
Qed.

(** After committing an assignment to the logged-in user, the next request
    loads the assigned user. *)
Lemma current_user_saved (w : world) (u u' : User) :
  current_user w = Some u -> id u' = id u ->
  current_user (with_store w (replace_user u' (store w))) = Some u'.
Proof using Type.
  unfold current_user, with_store, load_user, replace_user.
  cbn [session store users]. intros Hcur Hid.
  destruct (session w) as [uid|]; [|discriminate].
  rewrite find_map_key.
  - rewrite Hcur. cbn. apply find_some in Hcur. destruct Hcur as [_ E].
    apply Z.eqb_eq in E. rewrite Hid, Z.eqb_refl. reflexivity.
  - intros x. destruct (id x =? id u') eqn:E; [|reflexivity].
    apply Z.eqb_eq in E. congruence.
Qed.

(** A connect request for a platform of the set commits the token: it
    answers 200 with the bound token in the column, or ends in the error of
    the binding. *)
Lemma connect_platform_commit (p : string) (d : list (string * pyval))
    (w : world) (u : User) :
  current_user w = Some u -> In p platform_names ->
  connect_platform p (PDict d) w
  = run w (stored <- bind_text (or_default (dict_get "token" d) PNone) ;;
           Ok (Json 200 (message (p ++ " connected successfully")),
               with_store w (replace_user (set_token p stored u) (store w)))).
Proof using Type.
  intros Hcur Hp. unfold connect_platform, login_required. rewrite Hcur.
  rewrite get_dict. cbn [bind]. unfold save_user.
  apply platform_names_cases in Hp.
  destruct Hp as [-> | [-> | [-> | -> ]]];
    destruct (bind_text _); reflexivity.
Qed.

Lemma connect_platform_valid (p : string) (d : list (string * pyval))
    (w : world) (u : User) (stored : pyval) :
  current_user w = Some u -> In p platform_names ->
  bind_text (or_default (dict_get "token" d) PNone) = Ok stored ->
  connect_platform p (PDict d) w
  = (Json 200 (message (p ++ " connected successfully")),
     with_store w (replace_user (set_token p stored u) (store w))).
Proof using Type.
  intros Hcur Hp Hb. rewrite (connect_platform_commit p d w u Hcur Hp).
  now rewrite Hb.
Qed.

Lemma connect_platform_unbound (p : string) (d : list (string * pyval))
    (w : world) (u : User) (e : exn) :
  current_user w = Some u -> In p platform_names ->
  bind_text (or_default (dict_get "token" d) PNone) = Raise e ->
  connect_platform p (PDict d) w = (ServerError e, w).
Proof using Type.
  intros Hcur Hp Hb. rewrite (connect_platform_commit p d w u Hcur Hp).
  now rewrite Hb.
Qed.



Lemma disconnect_platform_valid (p : string) (w : world) (u : User) :
  current_user w = Some u -> In p platform_names ->
  disconnect_platform p w
  = (Json 200 (message (p ++ " disconnected successfully")),
     with_store w (replace_user (set_token p PNone u) (store w))).
Proof using Type.
  intros Hcur Hp. unfold disconnect_platform, login_required. rewrite Hcur.
  apply platform_names_cases in Hp.
  destruct Hp as [-> | [-> | [-> | -> ]]]; reflexivity.
Qed.

Lemma get_profile_flag (p : string) (w : world) (u : User) :
  current_user w = Some u -> In p platform_names ->
  platform_flag p (fst (get_profile w)) = Some (PBool (truthy (token_of p u))).
Proof using Type.
  intros Hcur Hp. unfold get_profile, login_required. rewrite Hcur.
  apply platform_names_cases in Hp.
  destruct Hp as [-> | [-> | [-> | -> ]]]; reflexivity.
Qed.



(** C10. For a logged-in user and a platform name of the set, a connect
    request whose dict payload has no ['token'] key answers 200, stores
    [None] in the platform's column, and leaves the very state that
    disconnecting the platform leaves; the profile then reports the flag as
    false. *)
Theorem connect_without_token_is_disconnect (p : string)
    (d : list (string * pyval)) (w : world) (u : User) :
  current_user w = Some u ->
  In p platform_names ->
  dict_get "token" d = None ->
  let w' := snd (connect_platform p (PDict d) w) in
  status_code (fst (connect_platform p (PDict d) w)) = 200 /\
  status_code (fst (disconnect_platform p w)) = 200 /\
  w' = snd (disconnect_platform p w) /\
  (exists u', current_user w' = Some u' /\ token_of p u' = PNone) /\
  platform_flag p (fst (get_profile w')) = Some (PBool false).
Proof using Type.
  intros Hcur Hp Htok. cbn zeta.
  assert (Hb : bind_text (or_default (dict_get "token" d) PNone) = Ok PNone)
    by (now rewrite Htok).
  rewrite (connect_platform_valid p d w u _ Hcur Hp Hb).
  rewrite (disconnect_platform_valid p w u Hcur Hp).
  cbn [fst snd status_code].
  pose proof (current_user_saved w u (set_token p PNone u) Hcur
                (set_token_id p PNone u)) as Hcur1.
  repeat split.
  - exists (set_token p PNone u). split; [exact Hcur1|].
    now apply token_of_set_token.
  - rewrite (get_profile_flag p _ _ Hcur1 Hp). now rewrite token_of_set_token.
Qed.

End Properties.

(** ** The handlers on the sample state *)

Example sample_parse :
  sample_fromisoformat "2025-01-01T00:00:00" = Some 20250101000000 /\
  sample_fromisoformat "2025-02-30T00:00:00" = None /\
  sample_fromisoformat "tomorrow" = None /\
  sample_isoformat 20250101000000 = "2025-01-01T00:00:00".
Proof. repeat split. Qed.

Lemma get_content_own_rows_descending_witness :
  current_user sample_world = Some alice /\
  exists rows,
    get_content sample_isoformat sample_world
      = (Json 200 (PList (map (content_json sample_isoformat) rows)),
         sample_world) /\
    Permutation
      (filter (fun c => user_id c =? id alice) (contents (store sample_world)))
      rows /\
    Forall (fun c => In c (contents (store sample_world)) /\ user_id c = id alice)
           rows /\
    (forall b : User, id b <> id alice ->
       forall c, In c rows -> user_id c <> id b) /\
    StronglySorted desc rows.
Proof.
  split; [reflexivity|].
  apply (get_content_own_rows_descending sample_isoformat sample_world alice).
  reflexivity.
Defined.

Example get_content_sample :
  query_contents alice sample_db
  = [post 3 "third" 20250301000000 1; post 1 "first" 20250101000000 1].
Proof. reflexivity. Qed.


Example login_wrong_password :
  login (PDict (login_request "bob" "wonderland")) sample_world
  = (Json 401 (error "Invalid credentials"), sample_world).
Proof. reflexivity. Qed.


Example register_twice :
  let first := register 20250101000000
                 (PDict (register_request "carol" "carol@example.org" "pw"))
                 sample_world in
  let second := register 20250102000000
                  (PDict (register_request "carol" "c2@example.org" "pw2"))
                  (snd first) in
  status_code (fst first) = 201 /\
  fst second = Json 400 (error "Username already exists") /\
  snd second = snd first /\
  map username (users (store (snd second)))
  = [PStr "alice"; PStr "bob"; PStr "carol"].
Proof. repeat split. Qed.

Lemma sample_content_keys : NoDup (content_keys sample_world).
Proof. repeat constructor; cbn; intros H; repeat destruct H as [H|H]; try discriminate; auto. Qed.



Example update_title_only :
  update_content sample_fromisoformat 3 (PDict [("title", PStr "new")])
                 sample_world
  = (Json 200 (message "Content updated successfully"),
     mkWorld (mkDb [alice; bob]
                   [post 1 "first" 20250101000000 1;
                    post 2 "other" 20250201000000 2;
                    post 3 "new" 20250301000000 1])
             (Some 1)).
Proof. reflexivity. Qed.

Example update_foreign_row :
  update_content sample_fromisoformat 2 (PDict [("title", PStr "new")])
                 sample_world
  = (Json 404 (error "Content not found"), sample_world).
Proof. reflexivity. Qed.



Example create_then_list :
  let after := create_content sample_fromisoformat 20240104000000
                 (PDict (create_request "t" "c" "2025-01-01T00:00:00"))
                 sample_world in
  fst after = Json 201 (PDict [("id", PInt 4);
                               ("message", PStr "Content scheduled successfully")]) /\
  map (fun c => (c_id c, status c)) (query_contents alice (store (snd after)))
  = [(3, PStr "pending"); (1, PStr "pending"); (4, PStr "pending")].
Proof. split; reflexivity. Qed.

Lemma create_content_unvalidated_witness :
  current_user sample_world = Some alice /\
  dict_get "scheduled_for" (create_request "t" "c" "next week")
    = Some (PStr "next week") /\
  status_code
    (fst (create_content sample_fromisoformat 20240104000000
            (PDict (create_request "t" "c" "next week")) sample_world)) = 500 /\
  snd (create_content sample_fromisoformat 20240104000000
         (PDict (create_request "t" "c" "next week")) sample_world)
  = sample_world.
Proof.
  split; [reflexivity|]. split; [reflexivity|].
  destruct (create_content_unvalidated sample_fromisoformat 20240104000000
              sample_world alice (create_request "t" "c" "next week") eq_refl)
    as (e & Heq & _ & _).
  - right. right. right. exists (PStr "next week").
    split; [reflexivity|]. intros ts. discriminate.
  - rewrite Heq. split; reflexivity.
Defined.

Example create_malformed_time :
  create_content sample_fromisoformat 20240104000000
    (PDict (create_request "t" "c" "next week")) sample_world
  = (ServerError ValueError, sample_world).
Proof. reflexivity. Qed.

Example create_without_title :
  create_content sample_fromisoformat 20240104000000
    (PDict [("content", PStr "c"); ("scheduled_for", PStr "2025-01-01T00:00:00")])
    sample_world
  = (ServerError (KeyError "title"), sample_world).
Proof. reflexivity. Qed.

Lemma twitch_is_platform : In "twitch" platform_names.
Proof. now left. Qed.




Example connect_then_disconnect :
  let w1 := snd (connect_platform "twitch" (PDict [("token", PStr "tok123")])
                                  sample_world) in
  let w2 := snd (disconnect_platform "twitch" w1) in
  platform_flag "twitch" (fst (get_profile w1)) = Some (PBool true) /\
  platform_flag "twitch" (fst (get_profile w2)) = Some (PBool false) /\
  w2 = sample_world.
Proof. repeat split. Qed.

Lemma update_content_keeps_status_owner_created_witness :
  NoDup (content_keys sample_world) /\
  let data := PDict [("status", PStr "published"); ("user_id", PInt 2);
                     ("created_at", PStr "2030-01-01T00:00:00");
                     ("title", PStr "mine")] in
  let rows' := contents (store (snd (update_content sample_fromisoformat 1 data
                                       sample_world))) in
  map status rows' = map status (contents sample_db) /\
  map user_id rows' = map user_id (contents sample_db) /\
  map c_created_at rows' = map c_created_at (contents sample_db).
Proof.
  split; [exact sample_content_keys|]. cbn zeta.
  apply (update_content_keeps_status_owner_created sample_fromisoformat 1 _
           sample_world sample_content_keys).
Defined.

Lemma connect_without_token_is_disconnect_witness :
  current_user (mkWorld sample_db (Some 2)) = Some bob /\
  In "twitch" platform_names /\
  snd (connect_platform "twitch" (PDict []) (mkWorld sample_db (Some 2)))
  = snd (disconnect_platform "twitch" (mkWorld sample_db (Some 2))).
Proof.
  split; [reflexivity|]. split; [exact twitch_is_platform|].
  destruct (connect_without_token_is_disconnect "twitch" []
              (mkWorld sample_db (Some 2)) bob
              eq_refl twitch_is_platform eq_refl) as (_ & _ & Hsame & _).
  exact Hsame.
Defined.

(** ** The commit-message filter *)

Lemma split_nonempty (s : string) : split s <> [].
Proof.
  destruct s as [|c rest]; cbn [split]; [discriminate|].
  destruct (Ascii.eqb c newline); [discriminate|].
  destruct (split rest); discriminate.
Qed.

Lemma join_cons_char (c : ascii) (line : string) (lines : list string) :
  join (String c line :: lines) = String c (join (line :: lines)).
Proof. destruct lines; reflexivity. Qed.

Lemma filter_all {A} (p : A -> bool) (l : list A) :
  (forall x, In x l -> p x = true) -> filter p l = l.
Proof.
  induction l as [|a l IH]; cbn; intros H; [reflexivity|].
  rewrite (H a (or_introl eq_refl)). f_equal. apply IH. intros x Hx. apply H. now right.
Qed.

Lemma join_of_split (data : string) : join (split data) = data.
Proof.
  induction data as [|c rest IH]; [reflexivity|]. cbn [split].
  destruct (Ascii.eqb c newline) eqn:E.
  - apply Ascii.eqb_eq in E. subst c.
    pose proof (split_nonempty rest) as Hne.
    destruct (split rest) as [|line lines]; [contradiction|].
    cbn [join]. cbn [join] in IH. now rewrite IH.
  - pose proof (split_nonempty rest) as Hne.
    destruct (split rest) as [|line lines]; [contradiction|].
    rewrite join_cons_char. now rewrite IH.
Qed.

(** X1. [split] then [join] is the identity: a message in which no line is
    skipped is written out byte for byte, final newline or not. *)
Theorem join_split (data : string) :
  join (split data) = data /\
  ((forall line, In line (split data) -> skipped line = false) ->
   main data = data).
Proof.
  split; [apply join_of_split|]. intros Hkeep. unfold main.
  rewrite filter_all; [apply join_of_split|].
  intros line Hin. now rewrite (Hkeep line Hin).
Qed.

Lemma split_no_newline (s : string) :
  Forall (fun line => has_newline line = false) (split s).
Proof.
  induction s as [|c rest IH]; cbn [split].
  - repeat constructor.
  - destruct (Ascii.eqb c newline) eqn:E.
    + constructor; [reflexivity|exact IH].
    + destruct (split rest) as [|line lines].
      * constructor; [cbn [has_newline]; now rewrite E|constructor].
      * inversion IH as [|? ? Hline Hlines]; subst.
        constructor; [cbn [has_newline]; now rewrite E|assumption].
Qed.

Lemma split_line (line : string) :
  has_newline line = false -> split line = [line].
Proof.
  induction line as [|c rest IH]; cbn [has_newline split]; [reflexivity|].
  intros H. apply orb_false_iff in H. destruct H as [E H].
  rewrite E, (IH H). reflexivity.
Qed.

Lemma split_app_newline (line rest : string) :
  has_newline line = false ->
  split (line ++ String newline rest) = line :: split rest.
Proof.
  induction line as [|c line IH]; cbn [has_newline split append]; intros H.
  - now rewrite Ascii.eqb_refl.
  - apply orb_false_iff in H. destruct H as [E H]. rewrite E, (IH H). reflexivity.
Qed.

Lemma split_join (lines : list string) :
  lines <> [] ->
  Forall (fun line => has_newline line = false) lines ->
  split (join lines) = lines.
Proof.
  induction lines as [|line rest IH]; intros Hne Hall; [contradiction|].
  inversion Hall as [|? ? Hline Hrest]; subst.
  destruct rest as [|next rest].
  - cbn. now apply split_line.
  - cbn [join]. rewrite split_app_newline by assumption.
    f_equal. apply IH; [discriminate|assumption].
Qed.

Lemma kept_no_newline (data : string) :
  Forall (fun line => has_newline line = false) (kept data).
Proof.
  apply Forall_forall. intros line Hin. apply filter_In in Hin.
  destruct Hin as [Hin _].
  exact (proj1 (Forall_forall _ _) (split_no_newline data) line Hin).
Qed.

Lemma filter_filter {A} (p : A -> bool) (l : list A) :
  filter p (filter p l) = filter p l.
Proof.
  induction l as [|a l IH]; cbn; [reflexivity|].
  destruct (p a) eqn:E; cbn; [rewrite E; now f_equal|exact IH].
Qed.

Lemma split_main (data : string) :
  (kept data <> [] -> split (main data) = kept data) /\
  (kept data = [] -> main data = EmptyString).
Proof.
  unfold main. fold (kept data). split.
  - intros Hne. apply split_join; [exact Hne|apply kept_no_newline].
  - intros ->. reflexivity.
Qed.

(** X2. The lines of the output are the lines of the input that the test
    does not skip, in their order; when every line is skipped the output is
    empty. *)
Theorem main_lines (data : string) :
  (kept data <> [] -> split (main data) = kept data) /\
  (kept data = [] -> main data = EmptyString).
Proof. apply split_main. Qed.

(** X3. No line of the output is a line the test skips: a co-author line
    naming the agent never reaches the output. *)
Theorem main_never_emits_skipped (data line : string) :
  In line (split (main data)) -> skipped line = false.
Proof.
  destruct (split_main data) as [Hsome Hnone].
  destruct (kept data) as [|l ls] eqn:E.
  - rewrite (Hnone eq_refl). cbn. intros [<-|[]]. reflexivity.
  - rewrite Hsome by discriminate. rewrite <- E. unfold kept.
    intros Hin. apply filter_In in Hin. destruct Hin as [_ H].
    now apply negb_true_iff in H.
Qed.

(** X4. Filtering twice is filtering once. *)
Theorem main_idempotent (data : string) : main (main data) = main data.
Proof.
  destruct (split_main data) as [Hsome Hnone].
  destruct (kept data) as [|l ls] eqn:E.
  - rewrite (Hnone eq_refl). reflexivity.
  - unfold main at 1. rewrite Hsome by discriminate.
    rewrite <- E. unfold kept. rewrite filter_filter. reflexivity.
Qed.

Lemma lower_app (a b : string) : lower (a ++ b) = (lower a ++ lower b)%string.
Proof. induction a as [|c a IH]; cbn [lower append]; [reflexivity|now rewrite IH]. Qed.

Lemma starts_with_elim (sub s : string) :
  starts_with sub s = true -> exists post, s = (sub ++ post)%string.
Proof.
  revert s. induction sub as [|a sub IH]; intros s H.
  - now exists s.
  - destruct s as [|b s]; cbn [starts_with] in H; [discriminate|].
    apply andb_true_iff in H. destruct H as [E H].
    apply Ascii.eqb_eq in E. subst b.
    destruct (IH s H) as [post ->]. now exists post.
Qed.

Lemma starts_with_app (sub post : string) : starts_with sub (sub ++ post) = true.
Proof.
  induction sub as [|a sub IH]; cbn [starts_with append]; [reflexivity|].
  now rewrite Ascii.eqb_refl, IH.
Qed.

Lemma bytes_in_unfold (sub s : string) :
  bytes_in sub s
  = starts_with sub s ||
    match s with EmptyString => false | String _ s' => bytes_in sub s' end.
Proof. destruct s; reflexivity. Qed.

(** [sub in s] holds exactly when [sub] occurs between two parts of [s]. *)
Lemma bytes_in_infix (sub s : string) :
  bytes_in sub s = true <-> exists pre post, s = (pre ++ sub ++ post)%string.
Proof.
  split.
  - induction s as [|c s IH]; rewrite bytes_in_unfold; intros H;
      apply orb_true_iff in H; destruct H as [H|H]; try discriminate.
    + apply starts_with_elim in H. destruct H as [post H].
      now exists EmptyString, post.
    + apply starts_with_elim in H. destruct H as [post H].
      now exists EmptyString, post.
    + destruct (IH H) as (pre & post & ->). now exists (String c pre), post.
  - intros (pre & post & ->). induction pre as [|c pre IH].
    + cbn [append]. rewrite bytes_in_unfold, starts_with_app. reflexivity.
    + cbn [append]. rewrite bytes_in_unfold, IH. apply orb_true_r.
Qed.

Lemma split_head_prefix (s line : string) (lines : list string) :
  split s = line :: lines -> exists post, s = (line ++ post)%string.
Proof.
  revert line lines. induction s as [|c rest IH]; cbn [split]; intros line lines H.
  - inversion H. now exists EmptyString.
  - destruct (Ascii.eqb c newline).
    + inversion H. now exists (String c rest).
    + destruct (split rest) as [|l ls] eqn:E.
      * inversion H. pose proof (split_nonempty rest). congruence.
      * destruct (IH l ls eq_refl) as [post ->].
        inversion H; subst. now exists post.
Qed.

Lemma in_split_infix (s line : string) :
  In line (split s) -> exists pre post, s = (pre ++ line ++ post)%string.
Proof.
  revert line. induction s as [|c rest IH]; cbn [split]; intros line H.
  - destruct H as [<-|[]]. now exists EmptyString, EmptyString.
  - destruct (Ascii.eqb c newline).
    + destruct H as [<-|H].
      * now exists EmptyString, (String c rest).
      * destruct (IH line H) as (pre & post & ->). now exists (String c pre), post.
    + destruct (split rest) as [|l ls] eqn:E.
      * destruct H as [<-|[]]. pose proof (split_nonempty rest). congruence.
      * destruct H as [<-|H].
        -- destruct (split_head_prefix rest l ls E) as [post ->].
           now exists EmptyString, post.
        -- destruct (IH line (or_intror H)) as (pre & post & ->).
           now exists (String c pre), post.
Qed.

Lemma append_assoc (a b c : string) :
  ((a ++ b) ++ c = a ++ (b ++ c))%string.
Proof. induction a as [|x a IH]; cbn [append]; [reflexivity|now rewrite IH]. Qed.

(** What occurs in the lower-cased line occurs in the lower-cased input. *)
Lemma bytes_in_line (sub s line : string) :
  In line (split s) ->
  bytes_in sub (lower line) = true -> bytes_in sub (lower s) = true.
Proof.
  intros Hin H. apply in_split_infix in Hin. destruct Hin as (pre & post & ->).
  apply bytes_in_infix in H. destruct H as (a & b & H).
  apply bytes_in_infix. rewrite !lower_app, H.
  exists (lower pre ++ a)%string, (b ++ lower post)%string.
  now rewrite !append_assoc.
Qed.


(** X5. An input in which [co-authored-by] does not occur, in any letter
    case, is written out unchanged, byte for byte. *)
Theorem main_without_coauthor (data : string) :
  bytes_in "co-authored-by" (lower data) = false -> main data = data.
Proof.
  intros Hno. unfold main. rewrite filter_all; [apply join_of_split|].
  intros line Hin. apply negb_true_iff. unfold skipped.
  destruct (bytes_in "co-authored-by" (lower line)) eqn:E; [|reflexivity].
  rewrite (bytes_in_line _ data line Hin E) in Hno. discriminate.
Qed.

(** X6. A line in which [cursor] does not occur in any letter case, for
    instance another person's co-author trailer, is never skipped: if it is a
    line of the input it is a line of the output. *)
Theorem main_keeps_foreign_lines (data line : string) :
  In line (split data) ->
  bytes_in "cursor" (lower line) = false ->
  In line (split (main data)).
Proof.
  intros Hin Hno.
  assert (Hkeep : skipped line = false).
  { unfold skipped.
    assert (H1 : bytes_in "cursoragent" (lower line) = false).
    { destruct (bytes_in "cursoragent" (lower line)) eqn:E; [|reflexivity].
      apply bytes_in_infix in E. destruct E as (pre & post & E).
      assert (bytes_in "cursor" (lower line) = true); [|congruence].
      apply bytes_in_infix. exists pre, ("agent" ++ post)%string.
      rewrite E. reflexivity. }
    assert (H2 : bytes_in "cursor" line = false).
    { destruct (bytes_in "cursor" line) eqn:E; [|reflexivity].
      apply bytes_in_infix in E. destruct E as (pre & post & E).
      assert (bytes_in "cursor" (lower line) = true); [|congruence].
      apply bytes_in_infix. exists (lower pre), (lower post).
      rewrite E, !lower_app. reflexivity. }
    rewrite H1, H2. apply andb_false_r. }
  assert (Hk : In line (kept data)).
  { apply filter_In. split; [exact Hin|now rewrite Hkeep]. }
  destruct (split_main data) as [Hsome _].
  rewrite Hsome; [exact Hk|]. intros E. rewrite E in Hk. contradiction.
Qed.

Example main_sample :
  main sample_message
  = ("Fix the scheduler" ++ String newline
     ("" ++ String newline ("Signed-off-by: A" ++ String newline "")))%string.
Proof. reflexivity. Qed.

(** ** Every request, every reachable state *)

Section Routes.

Variable fromisoformat : string -> option datetime.
Variable isoformat : datetime -> string.

Lemma is_none_false (v : pyval) : is_none v = false -> v <> PNone.
Proof using Type. intros H ->. discriminate. Qed.

Lemma current_user_in (w : world) (u : User) :
  current_user w = Some u -> In u (users (store w)) /\ session w = Some (id u).
Proof using Type.
  unfold current_user, load_user. destruct (session w) as [uid|]; [|discriminate].
  intros H. apply find_some in H. destruct H as [Hin E].
  apply Z.eqb_eq in E. now subst uid.
Qed.

Lemma bind_text_stored (v x : pyval) :
  bind_text v = Ok x -> x = PNone \/ exists s, x = PStr s.
Proof using Type.
  destruct v; cbn; intros H; try discriminate.
  - inversion H. now left.
  - inversion H. right. eauto.
  - destruct (in_int64 n); inversion H. right. eauto.
  - inversion H. right. eauto.
Qed.

Lemma first_user_by_free (col : User -> pyval) (v : pyval) (d : db) :
  first_user_by col v d = Ok None ->
  exists param,
    bind_text v = Ok param /\
    forall x, In x (users d) -> sql_eq (col x) param = false.
Proof using Type.
  unfold first_user_by. destruct (bind_text v) as [param|]; cbn [bind];
    [|discriminate].
  intros H. inversion H as [H']. exists param. split; [reflexivity|].
  exact (proj1 (find_ext_none _ _) H').
Qed.

Lemma first_user_by_found (col : User -> pyval) (v : pyval) (d : db) (u : User) :
  first_user_by col v d = Ok (Some u) -> In u (users d).
Proof using Type.
  unfold first_user_by. destruct (bind_text v) as [param|]; cbn [bind];
    [|discriminate].
  intros H. inversion H as [H']. now apply find_some in H'.
Qed.

Lemma sql_eq_py_eq (x param : pyval) :
  param <> PNone -> (param = PNone \/ exists s, param = PStr s) ->
  sql_eq x param = false -> py_eq x param = false.
Proof using Type.
  intros Hn [->|[s ->]] H; [contradiction|].
  destruct (py_eq x (PStr s)) eqn:E; [|reflexivity].
  apply py_eq_str in E. subst x. cbn in H. now rewrite String.eqb_refl in H.
Qed.

Lemma register_transition (now : datetime) (data : pyval) (w : world) :
  transition w (snd (register now data w)).
Proof using Type.
  unfold register.
  destruct (subscript data "username") as [uname|] eqn:E1; cbn [bind run snd];
    [|constructor].
  destruct (first_user_by username uname (store w)) as [[x|]|e] eqn:F1;
    cbn [bind run snd]; try constructor.
  destruct (subscript data "email") as [mail|] eqn:E2; cbn [bind run snd];
    [|constructor].
  destruct (first_user_by email mail (store w)) as [[x|]|e] eqn:F2;
    cbn [bind run snd]; try constructor.
  destruct (subscript data "password") as [pw|] eqn:E3; cbn [bind run snd];
    [|constructor].
  apply first_user_by_free in F1. destruct F1 as (name & B1 & F1).
  apply first_user_by_free in F2. destruct F2 as (addr & B2 & F2).
  unfold insert_user. cbn [username email password_hash id twitch_token
                           twitter_token instagram_token discord_token created_at].
  rewrite B1, B2. cbn [bind].
  destruct (bind_text pw) as [secret|]; cbn [bind run snd]; [|constructor].
  destruct (is_none name) eqn:N1; [constructor|].
  destruct (is_none addr) eqn:N2; [constructor|].
  destruct (is_none secret) eqn:N3; [constructor|].
  cbn [orb bind run snd].
  apply (T_register w (mkUser (next_id (map id (users (store w))))
                              name addr secret PNone PNone PNone PNone now)).
  - reflexivity.
  - repeat split; cbn; now apply is_none_false.
  - intros y Hy. cbn [username email]. split.
    + apply sql_eq_py_eq; [now apply is_none_false|
                           now apply (bind_text_stored uname)|now apply F1].
    + apply sql_eq_py_eq; [now apply is_none_false|
                           now apply (bind_text_stored mail)|now apply F2].
Qed.

Lemma login_transition (data : pyval) (w : world) :
  transition w (snd (login data w)).
Proof using Type.
  unfold login.
  destruct (subscript data "username") as [uname|]; cbn [bind run snd];
    [|constructor].
  destruct (first_user_by username uname (store w)) as [[user|]|e] eqn:F;
    cbn [bind run snd]; try constructor.
  destruct (subscript data "password") as [pw|]; cbn [bind run snd];
    [|constructor].
  destruct (py_eq (password_hash user) pw); cbn [snd]; [|constructor].
  apply T_login. now apply first_user_by_found in F.
Qed.

Lemma create_content_transition (now : datetime) (data : pyval) (w : world) :
  transition w (snd (create_content fromisoformat now data w)).
Proof using Type.
  unfold create_content, login_required.
  destruct (current_user w) as [u|] eqn:Hcur; [|constructor].
  repeat match goal with
         | |- context [bind ?m _] =>
             lazymatch m with
             | insert_content _ _ => fail
             | _ => destruct m; cbn [bind run snd]; [|constructor]
             end
         end.
  unfold insert_content.
  cbn [title content content_type platforms hashtags mentions files
       c_id scheduled_for status user_id c_created_at].
  repeat match goal with
         | |- context [bind (bind_text ?v) _] =>
             destruct (bind_text v); cbn [bind run snd]; [|constructor]
         end.
  match goal with |- context [is_none ?a || is_none ?b] =>
    destruct (is_none a) eqn:N1; [constructor|];
    destruct (is_none b) eqn:N2; [constructor|] end.
  cbn [orb bind run snd].
  eapply (T_create w u); try reflexivity; [exact Hcur|].
  split; cbn; now apply is_none_false.
Qed.

Lemma update_content_transition (cid : Z) (data : pyval) (w : world) :
  transition w (snd (update_content fromisoformat cid data w)).
Proof using Type.
  destruct (update_content_outcome fromisoformat cid data w)
    as [[Hw _]|(u & c & c' & Hcur & Hin & Hid & Hown & Heq & Hk & Hst & Hu & _ & Hnn & _)].
  - rewrite Hw. constructor.
  - rewrite Heq. cbn [snd]. now apply (T_update w u c c').
Qed.

Lemma delete_content_transition (cid : Z) (w : world) :
  transition w (snd (delete_content cid w)).
Proof using Type.
  unfold delete_content, login_required.
  destruct (current_user w) as [u|] eqn:Hcur; [|constructor].
  destruct (first_content cid (id u) (store w)) as [[c|]|e] eqn:Hc;
    cbn [bind run snd]; try constructor.
  apply first_content_some in Hc. destruct Hc as (Hin & Hid & Hown).
  now apply (T_delete w u c).
Qed.

Lemma connect_platform_transition (p : string) (data : pyval) (w : world) :
  transition w (snd (connect_platform p data w)).
Proof using Type.
  unfold connect_platform, login_required, save_user.
  destruct (current_user w) as [u|] eqn:Hcur; [|constructor].
  destruct (get data "token") as [token|]; cbn [bind run snd]; [|constructor].
  destruct (String.eqb p "twitch") eqn:E1;
    [destruct (bind_text token) as [t|]; cbn [bind run snd];
     [exact (T_token w u "twitch" t Hcur)|constructor]|].
  destruct (String.eqb p "twitter") eqn:E2;
    [destruct (bind_text token) as [t|]; cbn [bind run snd];
     [exact (T_token w u "twitter" t Hcur)|constructor]|].
  destruct (String.eqb p "instagram") eqn:E3;
    [destruct (bind_text token) as [t|]; cbn [bind run snd];
     [exact (T_token w u "instagram" t Hcur)|constructor]|].
  destruct (String.eqb p "discord") eqn:E4;
    [destruct (bind_text token) as [t|]; cbn [bind run snd];
     [exact (T_token w u "discord" t Hcur)|constructor]|constructor].
Qed.

Lemma disconnect_platform_transition (p : string) (w : world) :
  transition w (snd (disconnect_platform p w)).
Proof using Type.
  unfold disconnect_platform, login_required.
  destruct (current_user w) as [u|] eqn:Hcur; [|constructor].
  destruct (String.eqb p "twitch") eqn:E1;
    [exact (T_token w u "twitch" PNone Hcur)|].
  destruct (String.eqb p "twitter") eqn:E2;
    [exact (T_token w u "twitter" PNone Hcur)|].
  destruct (String.eqb p "instagram") eqn:E3;
    [exact (T_token w u "instagram" PNone Hcur)|].
  destruct (String.eqb p "discord") eqn:E4;
    [exact (T_token w u "discord" PNone Hcur)|constructor].
Qed.

(** Whatever the request, its effect on the state is one of [transition]. *)
Lemma handle_transition (now : datetime) (req : request) (w : world) :
  transition w (snd (handle fromisoformat isoformat now req w)).
Proof using Type.
  destruct req; cbn [handle].
  - constructor.
  - apply register_transition.
  - apply login_transition.
  - unfold logout, login_required.
    destruct (current_user w) as [u|] eqn:Hcur; [|constructor].
    now apply (T_logout w u).
  - unfold get_profile, login_required. destruct (current_user w); constructor.
  - unfold get_content, login_required. destruct (current_user w); constructor.
  - apply create_content_transition.
  - apply update_content_transition.
  - apply delete_content_transition.
  - apply connect_platform_transition.
  - apply disconnect_platform_transition.
Qed.

(** *** Invariants along [transition] *)

Lemma replace_user_column {B} (col : User -> B) (u' : User) (d : db) :
  (forall r, In r (users d) -> id r = id u' -> col u' = col r) ->
  map col (users (replace_user u' d)) = map col (users d).
Proof using Type.
  intros H. unfold replace_user. cbn [users]. rewrite map_map.
  apply map_ext_in. intros r Hr. destruct (id r =? id u') eqn:E; [|reflexivity].
  apply Z.eqb_eq in E. now apply H.
Qed.

Lemma replace_user_keys (u' : User) (d : db) :
  map id (users (replace_user u' d)) = map id (users d).
Proof using Type. apply replace_user_column. intros r _ E. now symmetry. Qed.

Lemma NoDup_map_filter {A B} (f : A -> B) (p : A -> bool) (l : list A) :
  NoDup (map f l) -> NoDup (map f (filter p l)).
Proof using Type.
  induction l as [|a l IH]; cbn; intros H; [constructor|].
  inversion H as [|? ? Hnotin Hnd]; subst.
  destruct (p a); [|now apply IH]. cbn. constructor; [|now apply IH].
  intros Hin. apply Hnotin. apply in_map_iff in Hin.
  destruct Hin as [x [Hx Hin]]. apply filter_In in Hin.
  apply in_map_iff. exists x. now split.
Qed.

Lemma NoDup_snoc {A} (l : list A) (x : A) :
  NoDup l -> ~ In x l -> NoDup (l ++ [x]).
Proof using Type.
  intros Hnd Hx. eapply Permutation_NoDup; [apply Permutation_cons_append|].
  now constructor.
Qed.

Lemma transition_primary_keys (w w' : world) :
  transition w w' -> primary_keys_ok w -> primary_keys_ok w'.
Proof using Type.
  intros Ht [Hu Hc]. unfold primary_keys_ok, user_keys, content_keys in *.
  destruct Ht; cbn [with_store store users contents remove_content];
    try (split; assumption).
  - split; [|assumption]. rewrite map_app. cbn [map].
    apply NoDup_snoc; [assumption|]. rewrite H. apply next_id_fresh.
  - split; [assumption|]. rewrite map_app. cbn [map].
    apply NoDup_snoc; [assumption|]. rewrite H0. apply next_id_fresh.
  - split; [assumption|]. rewrite replace_row_column; assumption.
  - split; [assumption|]. now apply NoDup_map_filter.
  - split; [|assumption]. now rewrite replace_user_keys.
Qed.

Lemma Forall_snoc {A} (P : A -> Prop) (l : list A) (x : A) :
  Forall P l -> P x -> Forall P (l ++ [x]).
Proof using Type.
  intros Hl Hx. apply Forall_app. split; [assumption|now constructor].
Qed.

Lemma Forall_replace {A} (P : A -> Prop) (g : A -> A) (l : list A) :
  Forall P l -> (forall r, In r l -> P r -> P (g r)) -> Forall P (map g l).
Proof using Type.
  intros Hl Hg. apply Forall_forall. intros y Hy. apply in_map_iff in Hy.
  destruct Hy as [r [<- Hr]]. apply Hg; [assumption|].
  exact (proj1 (Forall_forall _ _) Hl r Hr).
Qed.

Lemma Forall_filter_keep {A} (P : A -> Prop) (p : A -> bool) (l : list A) :
  Forall P l -> Forall P (filter p l).
Proof using Type.
  intros Hl. apply Forall_forall. intros y Hy. apply filter_In in Hy.
  exact (proj1 (Forall_forall _ _) Hl y (proj1 Hy)).
Qed.

Lemma set_token_identity (p : string) (t : pyval) (u : User) :
  identity_columns (set_token p t u) = identity_columns u.
Proof using Type.
  unfold set_token.
  repeat match goal with
         | |- context [String.eqb ?a ?b] => destruct (String.eqb a b)
         end; reflexivity.
Qed.

Lemma set_token_not_null (p : string) (t : pyval) (u : User) :
  user_not_null u -> user_not_null (set_token p t u).
Proof using Type.
  unfold set_token, user_not_null.
  repeat match goal with
         | |- context [String.eqb ?a ?b] => destruct (String.eqb a b)
         end; cbn; auto.
Qed.

Lemma transition_not_null (w w' : world) :
  transition w w' -> not_null_ok w -> not_null_ok w'.
Proof using Type.
  intros Ht [Hu Hc]. unfold not_null_ok in *.
  destruct Ht; cbn [with_store store users contents remove_content replace_user];
    try (split; assumption).
  - split; [now apply Forall_snoc|assumption].
  - split; [assumption|now apply Forall_snoc].
  - split; [assumption|]. apply Forall_replace; [assumption|].
    intros r _ Hr. now destruct (c_id r =? c_id c).
  - split; [assumption|now apply Forall_filter_keep].
  - split; [|assumption]. apply Forall_replace; [assumption|].
    intros r _ Hr. destruct (id r =? id (set_token platform token u)); [|assumption].
    apply set_token_not_null. apply current_user_in in H.
    exact (proj1 (Forall_forall _ _) Hu u (proj1 H)).
Qed.

Lemma transition_all_pending (w w' : world) :
  transition w w' -> all_pending w -> all_pending w'.
Proof using Type.
  intros Ht Hp. unfold all_pending in *.
  destruct Ht; cbn [with_store store users contents remove_content replace_user];
    try assumption.
  - now apply Forall_snoc.
  - apply Forall_replace; [assumption|]. intros r Hr Hst.
    destruct (c_id r =? c_id c); [|assumption].
    rewrite H4. exact (proj1 (Forall_forall _ _) Hp c H0).
  - now apply Forall_filter_keep.
Qed.

Lemma distinct_on_snoc (col : User -> pyval) (l : list User) (x : User) :
  distinct_on col l ->
  (forall a, In a l -> py_eq (col a) (col x) = false) ->
  distinct_on col (l ++ [x]).
Proof using Type.
  unfold distinct_on. induction 1 as [|a l Ha Hl IH]; cbn; intros Hx.
  - repeat constructor.
  - constructor.
    + apply Forall_app. split; [assumption|].
      constructor; [|constructor]. apply Hx. now left.
    + apply IH. intros b Hb. apply Hx. now right.
Qed.

Lemma distinct_on_map (col : User -> pyval) (g : User -> User) (l : list User) :
  (forall r, In r l -> col (g r) = col r) ->
  distinct_on col l -> distinct_on col (map g l).
Proof using Type.
  unfold distinct_on. intros Hg Hl. induction Hl as [|a l Ha Hl IH]; cbn.
  - constructor.
  - constructor.
    + apply Forall_forall. intros y Hy. apply in_map_iff in Hy.
      destruct Hy as [r [<- Hr]].
      rewrite (Hg a (or_introl eq_refl)), (Hg r (or_intror Hr)).
      exact (proj1 (Forall_forall _ _) Ha r Hr).
    + apply IH. intros r Hr. apply Hg. now right.
Qed.

Lemma replace_user_same_identity (w : world) (u : User) (p : string) (t : pyval) :
  NoDup (user_keys w) -> current_user w = Some u ->
  forall r, In r (users (store w)) ->
    identity_columns
      (if id r =? id (set_token p t u) then set_token p t u else r)
    = identity_columns r.
Proof using Type.
  intros Hnd Hcur r Hr. rewrite set_token_id.
  destruct (id r =? id u) eqn:E; [|reflexivity].
  apply Z.eqb_eq in E. apply current_user_in in Hcur.
  rewrite (NoDup_map_inj id _ r u Hnd Hr (proj1 Hcur) E).
  apply set_token_identity.
Qed.

Lemma transition_unique (w w' : world) :
  transition w w' -> primary_keys_ok w -> unique_ok w -> unique_ok w'.
Proof using Type.
  intros Ht [Hk _] [Hn He]. unfold unique_ok in *.
  destruct Ht; cbn [with_store store users contents remove_content replace_user];
    try (split; assumption).
  - split; apply distinct_on_snoc; try assumption; intros a Ha; now apply H1.
  - split; (apply distinct_on_map; [|assumption]); intros r Hr;
      pose proof (replace_user_same_identity w u platform token Hk H r Hr) as E;
      unfold identity_columns in E; congruence.
Qed.

Lemma transition_user_keys (w w' : world) (k : Z) :
  transition w w' -> In k (user_keys w) -> In k (user_keys w').
Proof using Type.
  intros Ht Hin. unfold user_keys in *.
  destruct Ht; cbn [with_store store users contents remove_content]; try assumption.
  - rewrite map_app. apply in_or_app. now left.
  - now rewrite replace_user_keys.
Qed.

Lemma transition_owners (w w' : world) :
  transition w w' -> owners_ok w -> owners_ok w'.
Proof using Type.
  intros Ht Ho. unfold owners_ok in *.
  assert (Hkeys : forall k, In k (user_keys w) -> In k (user_keys w'))
    by (intros k; now apply transition_user_keys).
  assert (Hold : Forall (fun c => In (user_id c) (user_keys w'))
                        (contents (store w))).
  { eapply Forall_impl; [|exact Ho]. intros c. apply Hkeys. }
  clear Ho. revert Hkeys Hold.
  destruct Ht; cbn [with_store store users contents remove_content replace_user];
    intros Hkeys Hold; try assumption.
  - apply Forall_snoc; [assumption|]. rewrite H1.
    apply current_user_in in H. apply in_map. exact (proj1 H).
  - apply Forall_replace; [assumption|]. intros r _ Hr.
    destruct (c_id r =? c_id c); [|assumption]. rewrite H3, H1.
    apply current_user_in in H. apply Hkeys. apply in_map. exact (proj1 H).
  - now apply Forall_filter_keep.
Qed.

Lemma transition_session (w w' : world) :
  transition w w' -> session_ok w -> session_ok w'.
Proof using Type.
  intros Ht Hs. unfold session_ok in *.
  pose proof (fun k => transition_user_keys w w' k Ht) as Hkeys.
  revert Hkeys.
  destruct Ht; cbn [with_store session]; intros Hkeys; try assumption;
    try (destruct (session w); [now apply Hkeys|exact I]).
  - apply Hkeys. now apply in_map.
  - exact I.
Qed.

(** *** Store invariants, request by request *)

(** X7. Serving any request keeps the primary keys of both tables unique
    and, with them, keeps the stored usernames pairwise different and the
    stored email addresses pairwise different under [==]. *)
Theorem handle_keeps_keys_unique (now : datetime) (req : request) (w : world) :
  primary_keys_ok w -> unique_ok w ->
  primary_keys_ok (snd (handle fromisoformat isoformat now req w)) /\
  unique_ok (snd (handle fromisoformat isoformat now req w)).
Proof using Type.
  intros Hk Hu. pose proof (handle_transition now req w) as Ht. split.
  - now apply (transition_primary_keys w).
  - now apply (transition_unique w).
Qed.

(** X8. Serving any request keeps the [nullable=False] columns filled: no
    stored user gets a [None] username, email or password, no stored row a
    [None] title or content. *)
Theorem handle_keeps_not_null (now : datetime) (req : request) (w : world) :
  not_null_ok w ->
  not_null_ok (snd (handle fromisoformat isoformat now req w)).
Proof using Type.
  apply transition_not_null, handle_transition.
Qed.

(** X9. Serving any request keeps the references valid: every content row
    is owned by a stored user, and a session names a stored user. *)
Theorem handle_keeps_references (now : datetime) (req : request) (w : world) :
  owners_ok w -> session_ok w ->
  owners_ok (snd (handle fromisoformat isoformat now req w)) /\
  session_ok (snd (handle fromisoformat isoformat now req w)).
Proof using Type.
  intros Ho Hs. pose proof (handle_transition now req w) as Ht. split.
  - now apply (transition_owners w).
  - now apply (transition_session w).
Qed.

(** X10. No request moves a row's status away from ['pending']: when every
    stored row is pending before a request, every stored row is pending
    after it. *)
Theorem handle_keeps_pending (now : datetime) (req : request) (w : world) :
  all_pending w ->
  all_pending (snd (handle fromisoformat isoformat now req w)).
Proof using Type.
  apply transition_all_pending, handle_transition.
Qed.

Lemma serve_invariant (P : world -> Prop) :
  (forall now req w, P w -> P (snd (handle fromisoformat isoformat now req w))) ->
  forall reqs w, P w -> P (serve fromisoformat isoformat reqs w).
Proof using Type.
  intros Hstep reqs. unfold serve.
  induction reqs as [|r reqs IH]; cbn [fold_left]; intros w Hw; [exact Hw|].
  apply IH. now apply Hstep.
Qed.

(** X11. In every state reached from the empty store by any sequence of
    requests: primary keys are unique, usernames and emails are pairwise
    different, the non-nullable columns are filled, every row has a stored
    owner, the session names a stored user, and every row is pending. *)
Theorem reachable_state_ok (reqs : list (datetime * request)) :
  let w := serve fromisoformat isoformat reqs empty_world in
  primary_keys_ok w /\ unique_ok w /\ not_null_ok w /\
  owners_ok w /\ session_ok w /\ all_pending w.
Proof using Type.
  cbn zeta.
  apply (serve_invariant
           (fun w => primary_keys_ok w /\ unique_ok w /\ not_null_ok w /\
                     owners_ok w /\ session_ok w /\ all_pending w)).
  - intros now req w (Hk & Hu & Hn & Ho & Hs & Hp).
    pose proof (handle_transition now req w) as Ht.
    split; [now apply (transition_primary_keys w)|].
    split; [now apply (transition_unique w)|].
    split; [now apply (transition_not_null w)|].
    split; [now apply (transition_owners w)|].
    split; [now apply (transition_session w)|].
    now apply (transition_all_pending w).
  - unfold primary_keys_ok, unique_ok, not_null_ok, owners_ok, session_ok,
      all_pending, distinct_on, user_keys, content_keys. cbn.
    repeat split; constructor.
Qed.

(** *** What a request cannot touch *)

Lemma filter_replace_other {A} (keep : A -> bool) (hit : A -> bool) (g : A -> A)
    (l : list A) :
  (forall r, In r l -> hit r = true -> keep r = false /\ keep (g r) = false) ->
  filter keep (map (fun r => if hit r then g r else r) l) = filter keep l.
Proof using Type.
  induction l as [|a l IH]; cbn [map filter]; intros H; [reflexivity|].
  rewrite IH by (intros r Hr; apply H; now right).
  destruct (hit a) eqn:E; [|reflexivity].
  destruct (H a (or_introl eq_refl) E) as [H1 H2]. now rewrite H1, H2.
Qed.

Lemma filter_filter_other {A} (keep drop : A -> bool) (l : list A) :
  (forall r, In r l -> drop r = false -> keep r = false) ->
  filter keep (filter drop l) = filter keep l.
Proof using Type.
  induction l as [|a l IH]; cbn [filter]; intros H; [reflexivity|].
  specialize (IH (fun r Hr => H r (or_intror Hr))).
  destruct (drop a) eqn:E; cbn [filter]; rewrite IH; [reflexivity|].
  now rewrite (H a (or_introl eq_refl) E).
Qed.

(** X12. With unique primary keys, a request served for the logged-in user
    leaves the rows of all other users exactly as they were, whatever id the
    request names; a request served with nobody logged in leaves the whole
    content table as it was. *)
Theorem handle_keeps_rows_of_others
    (now : datetime) (req : request) (w : world) :
  primary_keys_ok w ->
  let w' := snd (handle fromisoformat isoformat now req w) in
  (forall u, current_user w = Some u ->
     rows_of_others (id u) w' = rows_of_others (id u) w) /\
  (current_user w = None -> contents (store w') = contents (store w)).
Proof using Type.
  intros [_ Hk]. cbn zeta.
  pose proof (handle_transition now req w) as Ht. unfold rows_of_others.
  destruct Ht; cbn [with_store store users contents remove_content replace_user];
    split; try reflexivity; try congruence; intros u0 Hu0;
    assert (u0 = u) by congruence; subst u0.
  - rewrite filter_app. cbn [filter]. rewrite H1, Z.eqb_refl. cbn.
    apply app_nil_r.
  - apply (filter_replace_other _ (fun r => c_id r =? c_id c) (fun _ => c')).
    intros r Hr E. apply Z.eqb_eq in E.
    rewrite (NoDup_map_inj c_id _ r c Hk Hr H0 E).
    rewrite H3, H1, Z.eqb_refl. now split.
  - apply filter_filter_other. intros r Hr E. apply negb_false_iff in E.
    apply Z.eqb_eq in E. rewrite (NoDup_map_inj c_id _ r c Hk Hr H0 E).
    now rewrite H1, Z.eqb_refl.
Qed.

(** X13. With unique primary keys, no request changes the id, username,
    email, password or creation time of a stored user, and none removes a
    user: the identity columns of the user table after a request are those
    before it, followed by the newly registered user if there is one. *)
Theorem handle_keeps_user_identity
    (now : datetime) (req : request) (w : world) :
  primary_keys_ok w ->
  let w' := snd (handle fromisoformat isoformat now req w) in
  exists extra,
    map identity_columns (users (store w'))
    = map identity_columns (users (store w)) ++ extra /\
    (List.length extra <= 1)%nat.
Proof using Type.
  intros [Hk _]. cbn zeta.
  pose proof (handle_transition now req w) as Ht.
  destruct Ht; cbn [with_store store users contents remove_content replace_user];
    try (exists []; rewrite app_nil_r; split; [reflexivity|cbn; lia]).
  - exists [identity_columns new]. rewrite map_app. split; [reflexivity|cbn; lia].
  - exists []. rewrite app_nil_r. split; [|cbn; lia].
    rewrite map_map. apply map_ext_in. intros r Hr.
    now apply (replace_user_same_identity w).
Qed.

(** X14. A request served for the logged-in user leaves every other stored
    user, tokens included, as it was (a registration only appends); with
    nobody logged in the stored users stay as they were, in place. *)
Theorem handle_keeps_other_users
    (now : datetime) (req : request) (w : world) :
  let w' := snd (handle fromisoformat isoformat now req w) in
  (forall u, current_user w = Some u ->
     exists extra,
       other_users (id u) w' = other_users (id u) w ++ extra) /\
  (current_user w = None ->
     exists extra, users (store w') = users (store w) ++ extra).
Proof using Type.
  cbn zeta. pose proof (handle_transition now req w) as Ht. unfold other_users.
  destruct Ht; cbn [with_store store users contents remove_content replace_user];
    split; try congruence;
    try (intros; exists []; now rewrite app_nil_r).
  - intros u _. rewrite filter_app. eexists. reflexivity.
  - intros _. eexists. reflexivity.
  - intros u0 Hu0. assert (u0 = u) by congruence; subst u0.
    exists []. rewrite app_nil_r. rewrite set_token_id.
    apply (filter_replace_other _ (fun r => id r =? id u)
             (fun _ => set_token platform token u)).
    intros r _ E. rewrite E, set_token_id, Z.eqb_refl. now split.
Qed.

(** *** Rejections *)

(** X15. With nobody logged in, each of the eight routes behind
    [@login_required] answers 401 and leaves the state as it was, whatever
    the body and the path parameters. *)
Theorem protected_needs_login (now : datetime) (req : request) (w : world) :
  protected req = true ->
  current_user w = None ->
  handle fromisoformat isoformat now req w = (Unauthorized, w).
Proof using Type.
  intros Hp Hcur.
  destruct req; try discriminate Hp; cbn [handle];
    unfold logout, get_profile, get_content, create_content, update_content,
      delete_content, connect_platform, disconnect_platform, login_required;
    now rewrite Hcur.
Qed.

(** A leaf of a handler: the answer is a failure on the unchanged state, or
    a success. *)
Ltac leaf :=
  cbn [bind run fst snd];
  first [ intros _; reflexivity
        | let H := fresh in intros H; cbn in H; discriminate H ].

(** X16. A request that does not answer 200 or 201 changes nothing: every
    error answer (400, 401, 404, 500) comes with the state as it was. *)
Theorem failure_changes_nothing (now : datetime) (req : request) (w : world) :
  succeeded (fst (handle fromisoformat isoformat now req w)) = false ->
  snd (handle fromisoformat isoformat now req w) = w.
Proof using Type.
  destruct req; cbn [handle].
  - leaf.
  - unfold register.
    destruct (subscript data "username") as [uname|]; [|leaf]. cbn [bind].
    destruct (first_user_by username uname (store w)) as [[x|]|e]; cbn [bind];
      try leaf.
    destruct (subscript data "email") as [mail|]; [|leaf]. cbn [bind].
    destruct (first_user_by email mail (store w)) as [[x|]|e]; cbn [bind];
      try leaf.
    destruct (subscript data "password"); [|leaf]. cbn [bind].
    destruct (insert_user _ (store w)); leaf.
  - unfold login.
    destruct (subscript data "username") as [uname|]; [|leaf]. cbn [bind].
    destruct (first_user_by username uname (store w)) as [[user|]|e]; cbn [bind];
      try leaf.
    destruct (subscript data "password") as [pw|]; [|leaf]. cbn [bind].
    destruct (py_eq (password_hash user) pw); leaf.
  - unfold logout, login_required. destruct (current_user w); leaf.
  - unfold get_profile, login_required. destruct (current_user w); leaf.
  - unfold get_content, login_required. destruct (current_user w); leaf.
  - unfold create_content, login_required. destruct (current_user w); [|leaf].
    repeat match goal with
           | |- context [bind ?m _] => destruct m; [cbn [bind]|leaf]
           end.
    leaf.
  - destruct (update_content_outcome fromisoformat content_id data w)
      as [[Hw _]|(u & c & c' & _ & _ & _ & _ & Heq & _)].
    + intros _. exact Hw.
    + rewrite Heq. leaf.
  - unfold delete_content, login_required. destruct (current_user w); [|leaf].
    destruct (first_content content_id (id u) (store w)) as [[c|]|e]; leaf.
  - unfold connect_platform, login_required. destruct (current_user w); [|leaf].
    destruct (get data "token") as [token|]; [|leaf]. cbn [bind].
    repeat match goal with
           | |- context [String.eqb ?a ?b] =>
               destruct (String.eqb a b);
               [destruct (save_user _ token u (store w)); leaf|]
           end.
    leaf.
  - unfold disconnect_platform, login_required. destruct (current_user w); [|leaf].
    repeat match goal with
           | |- context [String.eqb ?a ?b] =>
               destruct (String.eqb a b);
               [destruct (save_user _ PNone u (store w)); leaf|]
           end.
    leaf.
Qed.

(** X17. A body that is not a JSON object never gets a JSON answer from a
    route that reads it: registering, logging in, creating, and connecting a
    platform end in an uncaught exception (500) on the unchanged state; for
    the connect route this holds also when the platform name is not one of
    the four, since the body is read before the name is tested. *)
Theorem non_object_body_is_server_error
    (now : datetime) (data : pyval) (w : world) (u : User) (p : string) :
  (forall d, data <> PDict d) ->
  current_user w = Some u ->
  register now data w = (ServerError TypeError, w) /\
  login data w = (ServerError TypeError, w) /\
  create_content fromisoformat now data w = (ServerError TypeError, w) /\
  connect_platform p data w = (ServerError AttributeError, w).
Proof using Type.
  intros Hnd Hcur.
  unfold register, login, create_content, connect_platform, login_required.
  rewrite Hcur.
  destruct data as [| | | | |d]; try (repeat split; reflexivity).
  now elim (Hnd d).
Qed.

(** *** Sessions *)

Lemma load_user_unique (w : world) (u : User) :
  NoDup (user_keys w) -> In u (users (store w)) ->
  load_user (id u) (store w) = Some u.
Proof using Type.
  intros Hnd Hin. unfold load_user.
  destruct (find (fun x => id x =? id u) (users (store w))) as [x|] eqn:E.
  - apply find_some in E. destruct E as [Hx E]. apply Z.eqb_eq in E.
    now rewrite (NoDup_map_inj id _ x u Hnd Hx Hin E).
  - apply (find_none _ _ E) in Hin. now rewrite Z.eqb_refl in Hin.
Qed.

Lemma find_app_none {A} (p : A -> bool) (l l' : list A) :
  find p l = None -> find p (l ++ l') = find p l'.
Proof using Type.
  induction l as [|a l IH]; cbn; [reflexivity|].
  destruct (p a); [discriminate|exact IH].
Qed.

Lemma world_eta (w : world) :
  with_store w (mkDb (users (store w)) (contents (store w))) = w.
Proof using Type. destruct w as [[us cs] s]. reflexivity. Qed.

(** X18. For a logged-in user, logout answers 200, keeps the store and
    clears the session: every route behind [@login_required] then answers
    401 until the next login. *)
Theorem logout_ends_session (w : world) (u : User) :
  current_user w = Some u ->
  logout w = (Json 200 (message "Logout successful"), mkWorld (store w) None) /\
  forall now req, protected req = true ->
    handle fromisoformat isoformat now req (mkWorld (store w) None)
    = (Unauthorized, mkWorld (store w) None).
Proof using Type.
  intros Hcur. split.
  - unfold logout, login_required. now rewrite Hcur.
  - intros now req Hp.
    destruct req; try discriminate Hp; reflexivity.
Qed.

(** X19. With unique user ids, a login that answers 200 makes the user
    whose credentials were given the current user of the following
    requests: the profile that follows is that user's. *)
Theorem login_opens_profile (w : world) (d : list (string * pyval))
    (name pw : string) :
  NoDup (user_keys w) ->
  dict_get "username" d = Some (PStr name) ->
  dict_get "password" d = Some (PStr pw) ->
  status_code (fst (login (PDict d) w)) = 200 ->
  exists u,
    In u (users (store w)) /\
    username u = PStr name /\ password_hash u = PStr pw /\
    current_user (snd (login (PDict d) w)) = Some u /\
    get_profile (snd (login (PDict d) w))
    = (Json 200 (profile_json u), snd (login (PDict d) w)).
Proof using Type.
  intros Hnd Hname Hpw. unfold login, subscript. rewrite Hname. cbn [bind].
  destruct (first_user_by_cases username name (store w)) as [[user F]|F];
    rewrite F; cbn [bind]; [|cbn; discriminate].
  rewrite Hpw. cbn [bind].
  destruct (py_eq (password_hash user) (PStr pw)) eqn:E; [|cbn; discriminate].
  intros _. cbn [run fst snd].
  apply first_user_by_some in F. destruct F as [Hin Hun].
  apply py_eq_str in E. exists user.
  assert (Hcur : current_user (mkWorld (store w) (Some (id user))) = Some user).
  { unfold current_user. cbn [session store]. now apply load_user_unique. }
  repeat split; try assumption.
  unfold get_profile, login_required. now rewrite Hcur.
Qed.



(** *** Creating and deleting *)

(** What a create request can do: fail on the unchanged state, or append
    one pending row of the logged-in user under the next id and answer 201
    with that id. *)
Lemma create_content_outcome (now : datetime) (data : pyval) (w : world) :
  (succeeded (fst (create_content fromisoformat now data w)) = false /\
   snd (create_content fromisoformat now data w) = w)
  \/
  exists u row,
    current_user w = Some u /\
    create_content fromisoformat now data w
    = (Json 201 (PDict [("id", PInt (c_id row));
                        ("message", PStr "Content scheduled successfully")]),
       with_store w (mkDb (users (store w)) (contents (store w) ++ [row]))) /\
    c_id row = next_id (content_keys w) /\
    user_id row = id u /\ status row = PStr "pending" /\ c_created_at row = now.
Proof using Type.
  unfold create_content, login_required.
  destruct (current_user w) as [u|] eqn:Hcur; [|left; now split].
  repeat match goal with
         | |- context [bind ?m _] =>
             lazymatch m with
             | insert_content _ _ => fail
             | _ => destruct m; cbn [bind run snd]; [|left; now split]
             end
         end.
  unfold insert_content.
  cbn [title content content_type platforms hashtags mentions files
       c_id scheduled_for status user_id c_created_at].
  repeat match goal with
         | |- context [bind (bind_text ?v) _] =>
             destruct (bind_text v); cbn [bind run snd]; [|left; now split]
         end.
  match goal with |- context [is_none ?a || is_none ?b] =>
    destruct (is_none a || is_none b) end; cbn [bind run]; [left; now split|].
  right. exists u.
  match goal with |- context [contents (store w) ++ [?r]] => exists r end.
  split; [reflexivity|]. split; [reflexivity|]. repeat split.
Qed.

Lemma filter_drop_fresh (l : list ScheduledContent) (row : ScheduledContent) :
  ~ In (c_id row) (map c_id l) ->
  filter (fun r => negb (c_id r =? c_id row)) (l ++ [row]) = l.
Proof using Type.
  intros Hfresh. rewrite filter_app. cbn [filter]. rewrite Z.eqb_refl. cbn.
  rewrite app_nil_r. apply filter_all. intros r Hr. apply negb_true_iff.
  apply Z.eqb_neq. intros E. apply Hfresh. rewrite <- E. now apply in_map.
Qed.

(** X22. Create then delete is a round trip: when a create request
    succeeds, it answers with the next id, and deleting that id right after
    answers 200 and gives back the state from before the create. *)
Theorem create_then_delete (now : datetime) (data : pyval) (w : world) :
  succeeded (fst (create_content fromisoformat now data w)) = true ->
  let new_id := next_id (content_keys w) in
  fst (create_content fromisoformat now data w)
  = Json 201 (PDict [("id", PInt new_id);
                     ("message", PStr "Content scheduled successfully")]) /\
  delete_content new_id (snd (create_content fromisoformat now data w))
  = (Json 200 (message "Content deleted successfully"), w).
Proof using Type.
  intros Hok. cbn zeta.
  destruct (create_content_outcome now data w)
    as [[Hf _]|(u & row & Hcur & Heq & Hid & Hown & _)]; [congruence|].
  rewrite Heq. cbn [fst snd]. rewrite Hid. split; [reflexivity|].
  unfold delete_content, login_required.
  assert (Hcur' : current_user (with_store w (mkDb (users (store w))
                                   (contents (store w) ++ [row]))) = Some u).
  { exact Hcur. }
  rewrite Hcur'. unfold first_content. cbn [with_store store contents].
  rewrite find_app_none.
  - cbn [find]. rewrite Hid, Hown, !Z.eqb_refl. cbn [andb bind run].
    unfold remove_content. cbn [with_store store contents users session].
    rewrite filter_drop_fresh.
    + clear. destruct w as [[us cs] s]. reflexivity.
    + rewrite Hid. apply next_id_fresh.
  - apply find_ext_none. intros r Hr. apply andb_false_iff. left.
    apply Z.eqb_neq. intros E.
    apply (next_id_fresh (content_keys w)). rewrite <- E.
    unfold content_keys. now apply in_map.
Qed.

Lemma first_content_unique (w : world) (u : User) (c : ScheduledContent) :
  NoDup (content_keys w) -> In c (contents (store w)) -> user_id c = id u ->
  first_content (c_id c) (id u) (store w) = Ok (Some c).
Proof using Type.
  intros Hk Hin Hown. unfold first_content.
  destruct (find _ (contents (store w))) as [x|] eqn:F.
  - apply find_some in F. destruct F as [Hx E].
    apply andb_true_iff in E. destruct E as [E _]. apply Z.eqb_eq in E.
    now rewrite (NoDup_map_inj c_id _ x c Hk Hx Hin E).
  - exfalso.
    exact (proj1 (no_row_find _ _ _) F c Hin eq_refl Hown).
Qed.

Lemma filter_drop_one (l : list ScheduledContent) (c : ScheduledContent) :
  NoDup (map c_id l) -> In c l ->
  S (List.length (filter (fun r => negb (c_id r =? c_id c)) l)) = List.length l.
Proof using Type.
  induction l as [|a l IH]; cbn [map filter In List.length]; intros Hnd Hin;
    [contradiction|].
  inversion Hnd as [|? ? Hnotin Hnd']; subst.
  destruct Hin as [->|Hin].
  - rewrite Z.eqb_refl. cbn [negb]. f_equal. f_equal. apply filter_all.
    intros r Hr. apply negb_true_iff, Z.eqb_neq. intros E.
    apply Hnotin. rewrite <- E. now apply in_map.
  - destruct (c_id a =? c_id c) eqn:E.
    + exfalso. apply Z.eqb_eq in E. apply Hnotin. rewrite E. now apply in_map.
    + cbn [negb List.length]. f_equal. now apply IH.
Qed.

(** X23. With unique row ids, deleting a row of the logged-in user answers
    200 and removes that row and no other: the id is gone from the table and
    from the user's listing, every other row is still stored, and the table
    has one row less; users and session are untouched, and deleting the same
    id (a 64-bit integer, as stored keys are) again answers 404. *)
Theorem delete_content_removes_one (w : world) (u : User) (c : ScheduledContent) :
  NoDup (content_keys w) ->
  current_user w = Some u ->
  In c (contents (store w)) -> user_id c = id u ->
  let r := fst (delete_content (c_id c) w) in
  let w' := snd (delete_content (c_id c) w) in
  r = Json 200 (message "Content deleted successfully") /\
  ~ In (c_id c) (content_keys w') /\
  ~ In (c_id c) (map c_id (query_contents u (store w'))) /\
  (forall x, In x (contents (store w)) -> c_id x <> c_id c ->
     In x (contents (store w'))) /\
  S (List.length (contents (store w'))) = List.length (contents (store w)) /\
  users (store w') = users (store w) /\ session w' = session w /\
  (in_int64 (c_id c) = true ->
   delete_content (c_id c) w' = (Json 404 (error "Content not found"), w')).
Proof using Type.
  intros Hk Hcur Hin Hown. cbn zeta.
  set (rest := filter (fun r => negb (c_id r =? c_id c)) (contents (store w))).
  assert (Hdel : delete_content (c_id c) w
                 = (Json 200 (message "Content deleted successfully"),
                    mkWorld (mkDb (users (store w)) rest) (session w))).
  { unfold delete_content, login_required.
    now rewrite Hcur, (first_content_unique w u c Hk Hin Hown). }
  rewrite Hdel. cbn [fst snd store contents users session].
  assert (Hgone : forall x, In x rest -> c_id x <> c_id c).
  { intros x Hx. apply filter_In in Hx. destruct Hx as [_ Hx].
    now apply negb_true_iff, Z.eqb_neq in Hx. }
  split; [reflexivity|]. split; [|split; [|split; [|split; [|split; [|split]]]]].
  - unfold content_keys. cbn [store contents]. intros H.
    apply in_map_iff in H. destruct H as [x [E Hx]]. now apply (Hgone x).
  - intros H. apply in_map_iff in H. destruct H as [x [E Hx]].
    apply query_contents_in in Hx. cbn [contents] in Hx.
    now apply (Hgone x (proj1 Hx)).
  - intros x Hx Hne. apply filter_In. split; [exact Hx|].
    now apply negb_true_iff, Z.eqb_neq.
  - now apply filter_drop_one.
  - reflexivity.
  - reflexivity.
  - intros Hrange. unfold delete_content, login_required.
    assert (Hcur' : current_user
              (mkWorld (mkDb (users (store w)) rest) (session w)) = Some u)
      by exact Hcur.
    rewrite Hcur'.
    replace (first_content _ _ _) with (@Ok (option ScheduledContent) None);
      [reflexivity|].
    symmetry. apply first_content_none. cbn [contents store].
    split; [exact Hrange|]. intros x Hx E. now elim (Hgone x Hx).
Qed.

(** *** Platform tokens, request after request *)

Lemma replace_user_twice (u1 u2 : User) (d : db) :
  id u1 = id u2 -> replace_user u2 (replace_user u1 d) = replace_user u2 d.
Proof using Type.
  intros E. unfold replace_user. cbn [users contents]. f_equal.
  rewrite map_map. apply map_ext. intros r. rewrite E.
  destruct (id r =? id u2) eqn:Er; [|now rewrite Er].
  now rewrite E, Z.eqb_refl.
Qed.


Lemma set_token_commute (p q : string) (t s : pyval) (u : User) :
  p <> q ->
  set_token q s (set_token p t u) = set_token p t (set_token q s u).
Proof using Type.
  intros Hne. unfold set_token.
  destruct (String.eqb p "twitch") eqn:P1;
  destruct (String.eqb p "twitter") eqn:P2;
  destruct (String.eqb p "instagram") eqn:P3;
  destruct (String.eqb p "discord") eqn:P4;
  destruct (String.eqb q "twitch") eqn:Q1;
  destruct (String.eqb q "twitter") eqn:Q2;
  destruct (String.eqb q "instagram") eqn:Q3;
  destruct (String.eqb q "discord") eqn:Q4;
  try reflexivity;
  repeat match goal with
         | H : String.eqb _ _ = true |- _ => apply String.eqb_eq in H
         end; congruence.
Qed.

(** Two token assignments in a row commit as the second one applied to the
    user the first one left. *)
Lemma token_write_twice (w : world) (u : User) (p q : string) (t s : pyval) :
  current_user w = Some u ->
  let w1 := with_store w (replace_user (set_token p t u) (store w)) in
  current_user w1 = Some (set_token p t u) /\
  with_store w1 (replace_user (set_token q s (set_token p t u)) (store w1))
  = with_store w (replace_user (set_token q s (set_token p t u)) (store w)).
Proof using Type.
  intros Hcur. cbn zeta. split.
  - eapply current_user_saved; [exact Hcur|apply set_token_id].
  - unfold with_store. cbn [store session]. f_equal.
    apply replace_user_twice. now rewrite !set_token_id.
Qed.

(** The state a connect request leaves, by whether its token can be bound. *)
Lemma connect_platform_state (p : string) (d : list (string * pyval))
    (w : world) (u : User) :
  current_user w = Some u -> In p platform_names ->
  (exists stored,
     bind_text (or_default (dict_get "token" d) PNone) = Ok stored /\
     snd (connect_platform p (PDict d) w)
     = with_store w (replace_user (set_token p stored u) (store w)))
  \/
  ((exists e, bind_text (or_default (dict_get "token" d) PNone) = Raise e) /\
   snd (connect_platform p (PDict d) w) = w).
Proof using Type.
  intros Hcur Hp. rewrite (connect_platform_commit p d w u Hcur Hp).
  destruct (bind_text _) as [stored|e]; cbn [bind run snd].
  - left. now exists stored.
  - right. split; [now exists e|reflexivity].
Qed.


(** X25. For a logged-in user, connecting two different platforms gives the
    same state in either order. *)
Theorem connect_platforms_commute (p q : string) (dp dq : list (string * pyval))
    (w : world) (u : User) :
  current_user w = Some u ->
  In p platform_names -> In q platform_names -> p <> q ->
  snd (connect_platform q (PDict dq) (snd (connect_platform p (PDict dp) w)))
  = snd (connect_platform p (PDict dp) (snd (connect_platform q (PDict dq) w))).
Proof using Type.
  intros Hcur Hp Hq Hne.
  destruct (connect_platform_state p dp w u Hcur Hp)
    as [(tp & Hbp & Hsp)|[[ep Hbp] Hsp]];
  destruct (connect_platform_state q dq w u Hcur Hq)
    as [(tq & Hbq & Hsq)|[[eq Hbq] Hsq]];
  rewrite Hsp, Hsq.
  - destruct (token_write_twice w u p q tp tq Hcur) as [Hc1 He1].
    destruct (token_write_twice w u q p tq tp Hcur) as [Hc2 He2].
    cbn zeta in *.
    rewrite (connect_platform_valid q dq _ _ tq Hc1 Hq Hbq).
    rewrite (connect_platform_valid p dp _ _ tp Hc2 Hp Hbp). cbn [snd].
    rewrite He1, He2. now rewrite (set_token_commute p q).
  - destruct (token_write_twice w u p q tp PNone Hcur) as [Hc1 _].
    cbn zeta in *.
    rewrite (connect_platform_unbound q dq _ _ eq Hc1 Hq Hbq). cbn [snd].
    now rewrite Hsp.
  - destruct (token_write_twice w u q p tq PNone Hcur) as [Hc2 _].
    cbn zeta in *.
    rewrite (connect_platform_unbound p dp _ _ ep Hc2 Hp Hbp). reflexivity.
  - now rewrite Hsp.
Qed.

(** X26. For a logged-in user: disconnecting a name outside the four
    platforms answers 400 and changes nothing; disconnecting a name of the
    set answers 200 and sets that platform's token to [None] for the user
    the next request loads, the other three tokens being as before. *)
Theorem disconnect_platform_closed_set (p : string) (w : world) (u : User) :
  current_user w = Some u ->
  let r := fst (disconnect_platform p w) in
  let w' := snd (disconnect_platform p w) in
  (~ In p platform_names ->
     r = Json 400 (error "Invalid platform") /\ w' = w) /\
  (In p platform_names ->
     r = Json 200 (message (p ++ " disconnected successfully")) /\
     exists u',
       current_user w' = Some u' /\
       token_of p u' = PNone /\
       (forall q, q <> p -> token_of q u' = token_of q u) /\
       identity_columns u' = identity_columns u /\
       contents (store w') = contents (store w) /\
       session w' = session w).
Proof using Type.
  intros Hcur. cbn zeta. split; intros Hp.
  - apply not_platform_name in Hp. destruct Hp as (E1 & E2 & E3 & E4).
    unfold disconnect_platform, login_required.
    now rewrite Hcur, E1, E2, E3, E4.
  - rewrite (disconnect_platform_valid p w u Hcur Hp). cbn [fst snd].
    split; [reflexivity|]. exists (set_token p PNone u).
    split; [eapply current_user_saved; [exact Hcur|apply set_token_id]|].
    split; [now apply token_of_set_token|].
    split; [intros q Hq; now apply token_of_set_other|].
    split; [apply set_token_identity|]. now split.
Qed.

End Routes.

(** ** The sample state and message, again *)

Lemma sample_primary_keys : primary_keys_ok sample_world.
Proof.
  split; repeat constructor; cbn; intros H;
    repeat destruct H as [H|H]; try discriminate; auto.
Qed.

Lemma sample_unique : unique_ok sample_world.
Proof. split; repeat constructor. Qed.

Lemma sample_not_null : not_null_ok sample_world.
Proof. split; repeat constructor; discriminate. Qed.

Lemma sample_owners : owners_ok sample_world.
Proof.
  unfold owners_ok. cbn.
  repeat (apply Forall_cons; [cbn; auto|]). apply Forall_nil.
Qed.

Lemma sample_session : session_ok sample_world.
Proof. cbn. auto. Qed.

Lemma sample_pending : all_pending sample_world.
Proof. repeat constructor. Qed.

Lemma main_never_emits_skipped_witness :
  In "Signed-off-by: A" (split (main sample_message)) /\
  skipped "Signed-off-by: A" = false.
Proof.
  assert (Hin : In "Signed-off-by: A" (split (main sample_message))).
  { vm_compute. right. right. left. reflexivity. }
  split; [exact Hin|].
  exact (main_never_emits_skipped sample_message "Signed-off-by: A" Hin).
Defined.

Lemma main_without_coauthor_witness :
  bytes_in "co-authored-by" (lower "Fix typo") = false /\
  main "Fix typo" = "Fix typo".
Proof.
  split; [reflexivity|]. exact (main_without_coauthor "Fix typo" eq_refl).
Defined.

Lemma main_keeps_foreign_lines_witness :
  In "Signed-off-by: A" (split sample_message) /\
  bytes_in "cursor" (lower "Signed-off-by: A") = false /\
  In "Signed-off-by: A" (split (main sample_message)).
Proof.
  assert (Hin : In "Signed-off-by: A" (split sample_message)).
  { vm_compute. right. right. right. left. reflexivity. }
  split; [exact Hin|]. split; [reflexivity|].
  exact (main_keeps_foreign_lines sample_message "Signed-off-by: A" Hin eq_refl).
Defined.

Lemma handle_keeps_keys_unique_witness :
  primary_keys_ok sample_world /\ unique_ok sample_world /\
  primary_keys_ok
    (snd (handle sample_fromisoformat sample_isoformat 20240104000000
            (PostContent (PDict (create_request "t" "c" "2025-01-01T00:00:00")))
            sample_world)).
Proof.
  split; [exact sample_primary_keys|]. split; [exact sample_unique|].
  exact (proj1 (handle_keeps_keys_unique sample_fromisoformat sample_isoformat
                  20240104000000 _ sample_world
                  sample_primary_keys sample_unique)).
Defined.

Lemma handle_keeps_not_null_witness :
  not_null_ok sample_world /\
  not_null_ok
    (snd (handle sample_fromisoformat sample_isoformat 20240104000000
            (PutContent 1 (PDict [("title", PNone)])) sample_world)).
Proof.
  split; [exact sample_not_null|].
  exact (handle_keeps_not_null sample_fromisoformat sample_isoformat
           20240104000000 _ sample_world sample_not_null).
Defined.

Lemma handle_keeps_references_witness :
  owners_ok sample_world /\ session_ok sample_world /\
  session_ok
    (snd (handle sample_fromisoformat sample_isoformat 20240104000000
            (PostLogin (PDict (login_request "bob" "builder"))) sample_world)).
Proof.
  split; [exact sample_owners|]. split; [exact sample_session|].
  exact (proj2 (handle_keeps_references sample_fromisoformat sample_isoformat
                  20240104000000 _ sample_world sample_owners sample_session)).
Defined.

Lemma handle_keeps_pending_witness :
  all_pending sample_world /\
  all_pending
    (snd (handle sample_fromisoformat sample_isoformat 20240104000000
            (PutContent 1 (PDict [("status", PStr "published")])) sample_world)).
Proof.
  split; [exact sample_pending|].
  exact (handle_keeps_pending sample_fromisoformat sample_isoformat
           20240104000000 _ sample_world sample_pending).
Defined.

Lemma handle_keeps_rows_of_others_witness :
  primary_keys_ok sample_world /\
  rows_of_others 1
    (snd (handle sample_fromisoformat sample_isoformat 20240104000000
            (DeleteContent 2) sample_world))
  = [post 2 "other" 20250201000000 2].
Proof.
  split; [exact sample_primary_keys|].
  exact (proj1 (handle_keeps_rows_of_others sample_fromisoformat
                  sample_isoformat 20240104000000 (DeleteContent 2)
                  sample_world sample_primary_keys) alice eq_refl).
Defined.

Lemma handle_keeps_user_identity_witness :
  primary_keys_ok sample_world /\
  exists extra,
    map identity_columns
      (users (store (snd (handle sample_fromisoformat sample_isoformat
                            20240104000000
                            (PostConnect "twitch" (PDict [("token", PStr "t")]))
                            sample_world))))
    = map identity_columns (users sample_db) ++ extra /\
    (List.length extra <= 1)%nat.
Proof.
  split; [exact sample_primary_keys|].
  exact (handle_keeps_user_identity sample_fromisoformat sample_isoformat
           20240104000000 _ sample_world sample_primary_keys).
Defined.

Lemma protected_needs_login_witness :
  protected (DeleteContent 1) = true /\
  current_user (mkWorld sample_db None) = None /\
  handle sample_fromisoformat sample_isoformat 20240104000000 (DeleteContent 1)
         (mkWorld sample_db None)
  = (Unauthorized, mkWorld sample_db None).
Proof.
  split; [reflexivity|]. split; [reflexivity|].
  exact (protected_needs_login sample_fromisoformat sample_isoformat
           20240104000000 (DeleteContent 1) (mkWorld sample_db None)
           eq_refl eq_refl).
Defined.

Lemma failure_changes_nothing_witness :
  succeeded
    (fst (handle sample_fromisoformat sample_isoformat 20240104000000
            (PutContent 1 (PDict [("title", PStr "x");
                                  ("scheduled_for", PStr "soon")]))
            sample_world)) = false /\
  snd (handle sample_fromisoformat sample_isoformat 20240104000000
         (PutContent 1 (PDict [("title", PStr "x");
                               ("scheduled_for", PStr "soon")]))
         sample_world) = sample_world.
Proof.
  split; [reflexivity|].
  exact (failure_changes_nothing sample_fromisoformat sample_isoformat
           20240104000000
           (PutContent 1 (PDict [("title", PStr "x");
                                 ("scheduled_for", PStr "soon")]))
           sample_world eq_refl).
Defined.

Lemma non_object_body_is_server_error_witness :
  (forall d, PList [] <> PDict d) /\
  current_user sample_world = Some alice /\
  connect_platform "myspace" (PList []) sample_world
  = (ServerError AttributeError, sample_world).
Proof.
  assert (Hnd : forall d, PList [] <> PDict d) by (intros d; discriminate).
  split; [exact Hnd|]. split; [reflexivity|].
  exact (proj2 (proj2 (proj2
           (non_object_body_is_server_error sample_fromisoformat 20240104000000
              (PList []) sample_world alice "myspace" Hnd eq_refl)))).
Defined.

Lemma logout_ends_session_witness :
  current_user sample_world = Some alice /\
  logout sample_world
  = (Json 200 (message "Logout successful"), mkWorld sample_db None).
Proof.
  split; [reflexivity|].
  exact (proj1 (logout_ends_session sample_fromisoformat sample_isoformat
                  sample_world alice eq_refl)).
Defined.

Lemma login_opens_profile_witness :
  NoDup (user_keys sample_world) /\
  status_code (fst (login (PDict (login_request "bob" "builder")) sample_world))
    = 200 /\
  exists u,
    username u = PStr "bob" /\
    get_profile (snd (login (PDict (login_request "bob" "builder")) sample_world))
    = (Json 200 (profile_json u),
       snd (login (PDict (login_request "bob" "builder")) sample_world)).
Proof.
  split; [exact (proj1 sample_primary_keys)|]. split; [reflexivity|].
  destruct (login_opens_profile sample_world (login_request "bob" "builder")
              "bob" "builder" (proj1 sample_primary_keys)
              eq_refl eq_refl eq_refl) as (u & _ & Hn & _ & _ & Hp).
  exists u. now split.
Defined.




Lemma create_then_delete_witness :
  succeeded
    (fst (create_content sample_fromisoformat 20240104000000
            (PDict (create_request "t" "c" "2025-01-01T00:00:00"))
            sample_world)) = true /\
  delete_content 4
    (snd (create_content sample_fromisoformat 20240104000000
            (PDict (create_request "t" "c" "2025-01-01T00:00:00"))
            sample_world))
  = (Json 200 (message "Content deleted successfully"), sample_world).
Proof.
  split; [reflexivity|].
  exact (proj2 (create_then_delete sample_fromisoformat 20240104000000
                  (PDict (create_request "t" "c" "2025-01-01T00:00:00"))
                  sample_world eq_refl)).
Defined.

Lemma delete_content_removes_one_witness :
  NoDup (content_keys sample_world) /\
  current_user sample_world = Some alice /\
  In (post 3 "third" 20250301000000 1) (contents (store sample_world)) /\
  fst (delete_content 3 sample_world)
  = Json 200 (message "Content deleted successfully").
Proof.
  assert (Hin : In (post 3 "third" 20250301000000 1)
                   (contents (store sample_world))).
  { cbn. auto. }
  split; [exact (proj2 sample_primary_keys)|]. split; [reflexivity|].
  split; [exact Hin|].
  exact (proj1 (delete_content_removes_one sample_world alice
                  (post 3 "third" 20250301000000 1)
                  (proj2 sample_primary_keys) eq_refl Hin eq_refl)).
Defined.

Lemma discord_is_platform : In "discord" platform_names.
Proof. cbn. auto. Qed.


Lemma connect_platforms_commute_witness :
  current_user sample_world = Some alice /\
  In "twitch" platform_names /\ In "discord" platform_names /\
  "twitch" <> "discord" /\
  snd (connect_platform "discord" (PDict [("token", PStr "d")])
         (snd (connect_platform "twitch" (PDict [("token", PStr "t")])
                 sample_world)))
  = snd (connect_platform "twitch" (PDict [("token", PStr "t")])
           (snd (connect_platform "discord" (PDict [("token", PStr "d")])
                   sample_world))).
Proof.
  assert (Hne : "twitch" <> "discord") by discriminate.
  split; [reflexivity|]. split; [exact twitch_is_platform|].
  split; [exact discord_is_platform|]. split; [exact Hne|].
  exact (connect_platforms_commute "twitch" "discord" [("token", PStr "t")]
           [("token", PStr "d")] sample_world alice
           eq_refl twitch_is_platform discord_is_platform Hne).
Defined.

Lemma disconnect_platform_closed_set_witness :
  current_user (mkWorld sample_db (Some 2)) = Some bob /\
  fst (disconnect_platform "twitch" (mkWorld sample_db (Some 2)))
  = Json 200 (message "twitch disconnected successfully").
Proof.
  split; [reflexivity|].
  exact (proj1 (proj2 (disconnect_platform_closed_set "twitch"
                         (mkWorld sample_db (Some 2)) bob eq_refl)
                      twitch_is_platform)).
Defined.

Example reachable_sample :
  serve sample_fromisoformat sample_isoformat
    [(20240101000000,
      PostRegister (PDict (register_request "alice" "alice@example.org" "wonderland")));
     (20240102000000,
      PostLogin (PDict (login_request "alice" "wonderland")));
     (20240103000000,
      PostContent (PDict (create_request "first" "body" "2025-01-01T00:00:00")));
     (20240104000000, DeleteContent 7);
     (20240105000000, PostLogout)]
    empty_world
  = mkWorld
      (mkDb [mkUser 1 (PStr "alice") (PStr "alice@example.org")
                    (PStr "wonderland") PNone PNone PNone PNone 20240101000000]
            [mkContent 1 (PStr "first") (PStr "body") (PStr "text") (PStr "[]")
                       20250101000000 PNone PNone (PStr "[]") (PStr "pending")
                       1 20240103000000])
      None.
Proof. reflexivity. Qed.
